(** * Library panels: expanding, collapsing and connecting dashboards

    A shallow embedding of the [librarypanels] service
    ([LoadLibraryPanelsForDashboard], [CleanLibraryPanelsForDashboard],
    [ConnectLibraryPanelsForDashboard], [IsEnabled]) and the properties
    the specification states about it.

    The Go code mutates the dashboard's JSON document in place and
    returns only an [error]; the embedding threads the document (and
    the database) through every call and returns the state that the
    caller observes afterwards together with what the call returned. *)

From stdpp Require Import gmap strings list fin_maps.
From Stdlib Require Import ZArith Ascii.

Set Warnings "-register-all".
Set Default Proof Using "Type".
#[local] Open Scope string_scope.
#[local] Open Scope list_scope.
#[local] Open Scope Z_scope.

(** ** Go values held by a JSON document *)

(** What an [interface{}] of a decoded document can hold.  The decoder
    is run with [UseNumber], so numbers arrive as [json.Number] (their
    literal text); [JInt64] and the nil map are the two further values
    that the service itself stores into a document. *)
Inductive any : Type :=
| JNil                                    (* untyped nil: JSON null *)
| JBool (b : bool)
| JNumber (literal : string)              (* json.Number *)
| JInt64 (i : Z)                          (* int64 *)
| JString (s : string)
| JArray (a : list any)                   (* []interface{} *)
| JMap (m : option (gmap string any)).    (* map[string]interface{}; None is the nil map *)

(** A Go map value: [None] is the nil map, which reads as empty. *)
Abbreviation gomap := (option (gmap string any)).

(** ** strconv.ParseInt(s, 10, 64), used by json.Number.Int64 *)

Definition digit (c : ascii) : option Z :=
  let n := Z.of_N (Ascii.N_of_ascii c) in
  if bool_decide (48 ≤ n ≤ 57) then Some (n - 48) else None.

Fixpoint digits (s : string) (acc : Z) : option Z :=
  match s with
  | EmptyString => Some acc
  | String c rest =>
      match digit c with
      | Some d => digits rest (acc * 10 + d)
      | None => None
      end
  end.

(** Base 10: at least one digit and nothing but digits.  Go stops with
    a range error once the value leaves uint64; the cutoff test of
    [ParseInt] below rejects those values as well, so the accumulator
    is left unbounded here. *)
Definition ParseUint (s : string) : option Z :=
  match s with
  | EmptyString => None
  | _ => digits s 0
  end.

Definition cutoff : Z := 2 ^ 63.

Definition ParseInt (s : string) : option Z :=
  match s with
  | EmptyString => None
  | String c rest =>
      if bool_decide (c = "+"%char) then
        match ParseUint rest with
        | Some un => if bool_decide (un < cutoff) then Some un else None
        | None => None
        end
      else if bool_decide (c = "-"%char) then
        match ParseUint rest with
        | Some un => if bool_decide (un ≤ cutoff) then Some (- un) else None
        | None => None
        end
      else
        match ParseUint s with
        | Some un => if bool_decide (un < cutoff) then Some un else None
        | None => None
        end
  end.

(** ** errors *)

Inductive error : Type :=
| errors_New (text : string)
| fmt_Errorf (format : string) (wrapped : error).   (* one %w verb *)

(** What a call does: it returns ([None] is a nil error) or it stops
    with a runtime panic. *)
Inductive outcome : Type :=
| Returns (err : option error)
| Panics.

(** ** simplejson *)

(** A [*simplejson.Json] is a pointer to a one-field struct holding an
    [interface{}]; it is identified here with that value.  Reads are
    plain functions.  The two writers change a slice or a map that the
    document shares, so they are given as functions from the old to the
    new content, to be applied at the place where the value sits (see
    [at_key] and [at_index]); [None] is a runtime panic. *)
Module simplejson.

Definition Json := any.

Definition NewFromAny (data : any) : Json := data.
Definition Interface (j : Json) : any := j.

(** [Map]: the type assertion to map[string]interface{}. *)
Definition Map (j : Json) : option gomap :=
  match j with
  | JMap m => Some m
  | _ => None
  end.

Definition Array (j : Json) : option (list any) :=
  match j with
  | JArray a => Some a
  | _ => None
  end.

Definition String_ (j : Json) : option string :=
  match j with
  | JString s => Some s
  | _ => None
  end.

Definition Int64 (j : Json) : option Z :=
  match j with
  | JNumber n => ParseInt n
  | JInt64 i => Some i
  | _ => None
  end.

(** [Get]: the value under [key], or a Json holding nil when the
    receiver is not a map or has no such key. *)
Definition Get (j : Json) (key : string) : Json :=
  match Map j with
  | Some (Some m) => default JNil (m !! key)
  | _ => JNil
  end.

(** [GetIndex]: the element, or a Json holding nil. *)
Definition GetIndex (j : Json) (index : nat) : Json :=
  match Array j with
  | Some a => default JNil (a !! index)
  | None => JNil
  end.

(** [MustMap()]: the default is the nil map. *)
Definition MustMap (j : Json) : gomap :=
  match Map j with
  | Some m => m
  | None => None
  end.

(** [MustArray()]: the default is the nil slice. *)
Definition MustArray (j : Json) : list any :=
  match Array j with
  | Some a => a
  | None => []
  end.

(** [MustString()]: the default is the empty string. *)
Definition MustString (j : Json) : string :=
  match String_ j with
  | Some s => s
  | None => ""
  end.

(** [MustInt64(def)]; [MustInt64()] is [MustInt64 j 0]. *)
Definition MustInt64 (j : Json) (def : Z) : Z :=
  match Int64 j with
  | Some i => i
  | None => def
  end.

(** [Set]: [m[key] = val] when the receiver holds a map, nothing
    otherwise.  Assigning into the nil map panics. *)
Definition Set_ (key : string) (val : any) (j : Json) : option Json :=
  match Map j with
  | Some (Some m) => Some (JMap (Some (<[key := val]> m)))
  | Some None => None
  | None => Some j
  end.

(** [SetIndex]: [arr[index] = val] when the receiver holds a slice,
    nothing otherwise.  An index outside the slice panics. *)
Definition SetIndex (index : nat) (val : any) (j : Json) : option Json :=
  match Array j with
  | Some arr =>
      if bool_decide (index < length arr)%nat
      then Some (JArray (<[index := val]> arr))
      else None
  | None => Some j
  end.

(** A write made through [j.Get(key)]: the value under [key] is a
    slice or a map shared with [j], so the write shows in [j].  When
    [Get] has nothing to return, the write goes to a fresh Json
    holding nil and is lost. *)
Definition at_key (key : string) (write : Json → option Json) (j : Json) : option Json :=
  match Map j with
  | Some (Some m) =>
      match m !! key with
      | Some v => v' ← write v; Some (JMap (Some (<[key := v']> m)))
      | None => _ ← write JNil; Some j
      end
  | _ => _ ← write JNil; Some j
  end.

(** A write made through [j.GetIndex(index)]. *)
Definition at_index (index : nat) (write : Json → option Json) (j : Json) : option Json :=
  match Array j with
  | Some a =>
      match a !! index with
      | Some v => v' ← write v; Some (JArray (<[index := v']> a))
      | None => _ ← write JNil; Some j
      end
  | None => _ ← write JNil; Some j
  end.

(** [json.RawMessage]: the bytes of the [model] column, given by what
    decoding them yields: a document, or a syntax error. *)
Inductive RawMessage : Type :=
| Raw (document : any)
| Garbled (err : error).

(** [RawMessage.MarshalJSON] hands the bytes back. *)
Definition MarshalJSON (m : RawMessage) : RawMessage + error := inl m.

(** [NewJson]: decode the bytes. *)
Definition NewJson (body : RawMessage) : Json + error :=
  match body with
  | Raw document => inl document
  | Garbled err => inr err
  end.

End simplejson.

Import simplejson.

(** Storing a Go map into an [interface{}]. *)
Definition box (m : gomap) : any := JMap m.

(** A composite literal [map[string]interface{}{...}]. *)
Definition map_literal (fields : list (string * any)) : any :=
  JMap (Some (list_to_map fields)).

(** ** The service and its collaborators *)

(** [setting.Cfg], as far as the service looks at it. *)
Record Cfg_ : Type := { PanelLibraryEnabled : bool }.

Definition IsPanelLibraryEnabled (cfg : Cfg_) : bool := PanelLibraryEnabled cfg.

(** [Cfg] is a pointer; [None] is nil. *)
Record LibraryPanelService : Type := { Cfg : option Cfg_ }.

Record Dashboard : Type := {
  Id : Z;
  Uid : string;
  Data : Json;
}.

(** The signed-in user a request carries. *)
Record ReqContext : Type := { UserId : Z; OrgId : Z }.

(** A row of [library_panel]. *)
Record LibraryPanel : Type := {
  ID : Z;
  OrgID : Z;
  FolderID : Z;
  UID : string;
  Name : string;
  Model : RawMessage;
  Created : Z;
  CreatedBy : Z;
  Updated : Z;
  UpdatedBy : Z;
}.

(** The two database calls of the service that live in another file of
    the package.  [DB] is the state of the database. *)
Class ReferenceStore (DB : Type) : Type := {
  getLibraryPanelsForDashboardID : Z → DB → DB * (gmap string LibraryPanel + error);
  connectDashboard : ReqContext → string → Z → DB → DB * option error;
}.

Definition IsEnabled (lps : LibraryPanelService) : bool :=
  match Cfg lps with
  | None => false
  | Some cfg => IsPanelLibraryEnabled cfg
  end.

(** ** Control flow of the three loops *)

(** What one round of a [for ... range] body does: fall through to the
    next round ([continue] or the end of the body), or leave the
    function. *)
Inductive flow : Type :=
| Continue
| Stop (o : outcome).

(** [for i, panel := range panels { body }; return nil] over a state
    [St].  The slice header is taken once (that fixes the number of
    rounds); each round reads its element from the backing array as it
    is at that moment, which [read] gives. *)
Fixpoint range {St : Type} (read : St → list any) (body : nat → any → St → St * flow)
    (i : nat) (rounds : nat) (s : St) : St * outcome :=
  match rounds with
  | O => (s, Returns None)
  | S rounds' =>
      match read s !! i with
      | None => (s, Panics)
      | Some panel =>
          match body i panel s with
          | (s', Continue) => range read body (S i) rounds' s'
          | (s', Stop o) => (s', o)
          end
      end
  end.

(** A write into the document, then the rest of the body. *)
Definition write_then (w : Json → option Json) (data : Json)
    (rest : Json → Json * flow) : Json * flow :=
  match w data with
  | Some data' => rest data'
  | None => (data, Stop Panics)
  end.

Definition fail (data : Json) (err : error) : Json * flow :=
  (data, Stop (Returns (Some err))).

(** [x == nil] for an [interface{}]: only the untyped nil. *)
Definition is_nil (x : any) : bool :=
  match x with
  | JNil => true
  | _ => false
  end.

Definition len (s : string) : nat := String.length s.

(** [dash.Data.Get("panels").MustArray()] *)
Definition panels_of (data : Json) : list any := MustArray (Get data "panels").

(** ** LoadLibraryPanelsForDashboard *)

(** The body of the loop; [data] is [dash.Data]. *)
Definition loadPanel (libraryPanels : gmap string LibraryPanel)
    (i : nat) (panel : any) (data : Json) : Json * flow :=
  let panelAsJSON := NewFromAny panel in
  let libraryPanel := Get panelAsJSON "libraryPanel" in
  if is_nil (Interface libraryPanel) then (data, Continue) else
  (* we have a library panel *)
  let uid := MustString (Get libraryPanel "uid") in
  if bool_decide (len uid = 0%nat) then
    fail data (errors_New "found a library panel without uid") else
  match libraryPanels !! uid with
  | None =>
      fail data (errors_New "found a library panel that does not exists as a connection")
  | Some libraryPanelInDB =>
      (* we have a match between what is stored in db and in dashboard json *)
      match MarshalJSON (Model libraryPanelInDB) with
      | inr err => fail data (fmt_Errorf "could not marshal library panel JSON: %w" err)
      | inl libraryPanelModel =>
          match NewJson libraryPanelModel with
          | inr err => fail data (fmt_Errorf "could not convert library panel to JSON: %w" err)
          | inl libraryPanelModelAsJSON =>
              (* set the library panel json as new panel json in dashboard json *)
              write_then
                (at_key "panels" (SetIndex i (Interface libraryPanelModelAsJSON))) data
                (λ data,
                  (* set dashboard specific props *)
                  let elem := λ write, at_key "panels" (at_index i write) in
                  write_then
                    (elem (Set_ "gridPos" (box (MustMap (Get panelAsJSON "gridPos"))))) data
                    (λ data,
                      write_then
                        (elem (Set_ "id" (JInt64 (MustInt64 (Get panelAsJSON "id") 0)))) data
                        (λ data,
                          write_then
                            (elem (Set_ "libraryPanel"
                               (map_literal [("uid", JString (UID libraryPanelInDB));
                                             ("name", JString (Name libraryPanelInDB))]))) data
                            (λ data, (data, Continue)))))
          end
      end
  end.

Definition with_data (dash : Dashboard) (data : Json) : Dashboard :=
  {| Id := Id dash; Uid := Uid dash; Data := data |}.

Section Service.
Context {DB : Type} `{!ReferenceStore DB}.

(** The dashboard and the database after the call, and what the call
    returned. *)
Definition LoadLibraryPanelsForDashboard (lps : LibraryPanelService)
    (dash : Dashboard) (db : DB) : Dashboard * DB * outcome :=
  if negb (IsEnabled lps) then (dash, db, Returns None) else
  match getLibraryPanelsForDashboardID (Id dash) db with
  | (db, inr err) => (dash, db, Returns (Some err))
  | (db, inl libraryPanels) =>
      let panels := panels_of (Data dash) in
      let '(data, o) :=
        range panels_of (loadPanel libraryPanels) 0 (length panels) (Data dash) in
      (with_data dash data, db, o)
  end.

End Service.

(** ** CleanLibraryPanelsForDashboard *)

Definition cleanPanel (i : nat) (panel : any) (data : Json) : Json * flow :=
  let panelAsJSON := NewFromAny panel in
  let libraryPanel := Get panelAsJSON "libraryPanel" in
  if is_nil (Interface libraryPanel) then (data, Continue) else
  (* we have a library panel *)
  let uid := MustString (Get libraryPanel "uid") in
  if bool_decide (len uid = 0%nat) then
    fail data (errors_New "found a library panel without uid") else
  let name := MustString (Get libraryPanel "name") in
  if bool_decide (len name = 0%nat) then
    fail data (errors_New "found a library panel without name") else
  let gridPos := MustMap (Get panelAsJSON "gridPos") in
  let id := MustInt64 (Get panelAsJSON "id") (Z.of_nat i) in
  write_then
    (at_key "panels" (SetIndex i
       (map_literal [("id", JInt64 id);
                     ("gridPos", box gridPos);
                     ("libraryPanel", map_literal [("uid", JString uid);
                                                   ("name", JString name)])]))) data
    (λ data, (data, Continue)).

(** The call reads no database, so none is threaded through it. *)
Definition CleanLibraryPanelsForDashboard (lps : LibraryPanelService)
    (dash : Dashboard) : Dashboard * outcome :=
  if negb (IsEnabled lps) then (dash, Returns None) else
  let panels := panels_of (Data dash) in
  let '(data, o) := range panels_of cleanPanel 0 (length panels) (Data dash) in
  (with_data dash data, o).

(** ** ConnectLibraryPanelsForDashboard *)

Section Connect.
Context {DB : Type} `{!ReferenceStore DB}.

(** The body of the loop; the state is the database, the dashboard is
    only read. *)
Definition connectPanel (c : ReqContext) (dash : Dashboard)
    (i : nat) (panel : any) (db : DB) : DB * flow :=
  let panelAsJSON := NewFromAny panel in
  let libraryPanel := Get panelAsJSON "libraryPanel" in
  if is_nil (Interface libraryPanel) then (db, Continue) else
  (* we have a library panel *)
  let uid := MustString (Get libraryPanel "uid") in
  if bool_decide (len uid = 0%nat) then
    (db, Stop (Returns (Some (errors_New "found a library panel without uid")))) else
  match connectDashboard c uid (Id dash) db with
  | (db, Some err) => (db, Stop (Returns (Some err)))
  | (db, None) => (db, Continue)
  end.

Definition ConnectLibraryPanelsForDashboard (lps : LibraryPanelService)
    (c : ReqContext) (dash : Dashboard) (db : DB) : DB * outcome :=
  if negb (IsEnabled lps) then (db, Returns None) else
  if bool_decide (Id dash = 0) || bool_decide (Uid dash = "") then
    (db, Returns (Some (errors_New "dashboard is missing an ID or uid"))) else
  let panels := panels_of (Data dash) in
  range (λ _, panels) (connectPanel c dash) 0 (length panels) db.

End Connect.

(** ** The Reference Store *)

(** A row of [library_panel_dashboard]. *)
Record libraryPanelDashboard : Type := {
  row_id : Z;
  librarypanel_id : Z;
  dashboard_id : Z;
  created : Z;
  created_by : Z;
}.

(** The calls the store has received, to tell a store that was left
    alone from one that was only read. *)
Inductive query : Type :=
| FetchLinkedPanels (dashboardID : Z)
| UpsertLink (uid : string) (dashboardID : Z).

Record SQLStore : Type := {
  library_panel : list LibraryPanel;
  library_panel_dashboard : list libraryPanelDashboard;
  clock : Z;
  outage : option error;        (* the failure of every read and write, if any *)
  received : list query;        (* latest first *)
}.

Definition receive (q : query) (db : SQLStore) : SQLStore :=
  {| library_panel := library_panel db;
     library_panel_dashboard := library_panel_dashboard db;
     clock := clock db;
     outage := outage db;
     received := q :: received db |}.

Definition links (libraryPanelID dashboardID : Z) (row : libraryPanelDashboard) : bool :=
  bool_decide (librarypanel_id row = libraryPanelID) &&
  bool_decide (dashboard_id row = dashboardID).

Definition connected (db : SQLStore) (dashboardID : Z) (p : LibraryPanel) : bool :=
  existsb (links (ID p) dashboardID) (library_panel_dashboard db).

(** Modelled from the spec: Panel Lookup ([getLibraryPanelsForDashboardID],
    which is in another file of the package).  One read that returns,
    keyed by external identifier, the record of every library panel
    connected to the dashboard through the link table; the empty
    mapping when there is none; a store error when the read fails. *)
Definition fetchLinkedPanels (dashboardID : Z) (db : SQLStore)
    : SQLStore * (gmap string LibraryPanel + error) :=
  let db' := receive (FetchLinkedPanels dashboardID) db in
  match outage db with
  | Some err => (db', inr err)
  | None =>
      (db', inl (list_to_map
                   ((λ p, (UID p, p)) <$>
                      filter (λ p, connected db dashboardID p = true) (library_panel db))))
  end.

Definition byUID (db : SQLStore) (uid : string) : option LibraryPanel :=
  find (λ p, bool_decide (UID p = uid)) (library_panel db).

Definition insertLink (row : libraryPanelDashboard) (db : SQLStore) : SQLStore :=
  {| library_panel := library_panel db;
     library_panel_dashboard := library_panel_dashboard db ++ [row];
     clock := clock db;
     outage := outage db;
     received := received db |}.

(** Modelled from the spec: the idempotent upsert of a Link Row
    ([connectDashboard], which is in another file of the package) for
    the library panel with the given external identifier and the
    dashboard.  A pair that is linked already is left as it is; it is
    neither an error nor a second row.  The write fails with a store
    error when the store does, or when it holds no such library
    panel. *)
Definition upsertLink (c : ReqContext) (uid : string) (dashboardID : Z) (db : SQLStore)
    : SQLStore * option error :=
  let db' := receive (UpsertLink uid dashboardID) db in
  match outage db with
  | Some err => (db', Some err)
  | None =>
      match byUID db uid with
      | None => (db', Some (errors_New "library panel not found"))
      | Some p =>
          if existsb (links (ID p) dashboardID) (library_panel_dashboard db)
          then (db', None)
          else
            (insertLink
               {| row_id := 1 + Z.of_nat (length (library_panel_dashboard db));
                  librarypanel_id := ID p;
                  dashboard_id := dashboardID;
                  created := clock db;
                  created_by := UserId c |} db',
             None)
      end
  end.

#[export] Instance SQLStore_ReferenceStore : ReferenceStore SQLStore := {
  getLibraryPanelsForDashboardID := fetchLinkedPanels;
  connectDashboard := upsertLink;
}.

(** The unique index of [library_panel_dashboard] on
    (librarypanel_id, dashboard_id). *)
Definition unique_index (rows : list libraryPanelDashboard) : Prop :=
  NoDup ((λ row, (librarypanel_id row, dashboard_id row)) <$> rows).

(** How many rows link the pair. *)
Definition link_rows (db : SQLStore) (libraryPanelID dashboardID : Z) : nat :=
  length (filter (λ row, links libraryPanelID dashboardID row = true)
            (library_panel_dashboard db)).

(** ** Vocabulary of the properties *)

(** A panel entry is library-linked when its [libraryPanel] is there
    and not null. *)
Definition linked (panel : any) : bool := negb (is_nil (Get panel "libraryPanel")).

Definition uid_of (panel : any) : string :=
  MustString (Get (Get panel "libraryPanel") "uid").

Definition name_of (panel : any) : string :=
  MustString (Get (Get panel "libraryPanel") "name").

(** [{uid, name}] *)
Definition reference (uid name : string) : any :=
  map_literal [("uid", JString uid); ("name", JString name)].

(** The kinds of error of the specification. *)
Definition MalformedReference (err : error) : Prop :=
  err = errors_New "found a library panel without uid" ∨
  err = errors_New "found a library panel without name".

Definition DanglingReference (err : error) : Prop :=
  err = errors_New "found a library panel that does not exists as a connection".

Definition ValidationFailure (err : error) : Prop :=
  err = errors_New "dashboard is missing an ID or uid".

(** The document [data] with [panels] as its panel array. *)
Definition with_panels (data : Json) (panels : list any) : Json :=
  match data with
  | JMap (Some m) =>
      match m !! "panels" with
      | Some (JArray _) => JMap (Some (<["panels" := JArray panels]> m))
      | _ => data
      end
  | _ => data
  end.

(** An entry that the loop of Expand passes without leaving: it is
    plain, or its identifier is not empty and found, and the content
    of the library panel decodes (to something other than a nil map,
    which decoding never yields). *)
Definition resolves (libraryPanels : gmap string LibraryPanel) (panel : any) : Prop :=
  linked panel = false ∨
  ∃ p document,
    uid_of panel ≠ "" ∧ libraryPanels !! uid_of panel = Some p ∧
    Model p = Raw document ∧ document ≠ JMap None.

(** An entry that the loop of Collapse passes without leaving. *)
Definition well_formed (panel : any) : Prop :=
  linked panel = false ∨ (uid_of panel ≠ "" ∧ name_of panel ≠ "").

(** A library-linked entry that says of its library panel what the
    lookup result says: the uid is not empty and maps to a library
    panel with that uid and the entry's (non-empty) name, whose content
    is a JSON object; and the entry has an integer id. *)
Definition in_step (libraryPanels : gmap string LibraryPanel) (panel : any) : Prop :=
  linked panel = true →
  ∃ p content,
    uid_of panel ≠ "" ∧ libraryPanels !! uid_of panel = Some p ∧
    UID p = uid_of panel ∧ Name p = name_of panel ∧ name_of panel ≠ "" ∧
    Model p = Raw (JMap (Some content)) ∧ is_Some (Int64 (Get panel "id")).

Definition pair_of (row : libraryPanelDashboard) : Z * Z :=
  (librarypanel_id row, dashboard_id row).

(** What a database has when an entry's library panel is linked to
    the dashboard. *)
Definition linked_in (db : SQLStore) (dashboardID : Z) (panel : any) : Prop :=
  uid_of panel ≠ "" ∧ outage db = None ∧
  ∃ p, byUID db (uid_of panel) = Some p ∧
       existsb (links (ID p) dashboardID) (library_panel_dashboard db) = true.

(** ** AddMigration *)

(** The [migrator] package, as far as [AddMigration] uses it: tables,
    columns and indices are plain structs (a field left out of a
    composite literal has its zero value), a migration creates a table
    or adds an index to one, and the migrator keeps the migrations it
    is given in the order it is given them, each under its id. *)
Module migrator.

Inductive ColumnType : Type := DB_BigInt | DB_NVarchar | DB_Text | DB_DateTime.

Inductive IndexKind : Type := IndexType | UniqueIndex.

Record Column : Type := {
  Name : string;
  Type_ : ColumnType;
  Length : Z;
  Nullable : bool;
  IsPrimaryKey : bool;
  IsAutoIncrement : bool;
}.

Record Index : Type := {
  Cols : list string;
  Kind : IndexKind;
}.

Record Table : Type := {
  TableName : string;
  Columns : list Column;
  Indices : list Index;
}.

Inductive Migration : Type :=
| NewAddTableMigration (table : Table)
| NewAddIndexMigration (table : Table) (index : Index).

(** The migrations, oldest first, each with its id. *)
Definition Migrator : Type := list (string * Migration).

Definition AddMigration (id : string) (m : Migration) (mg : Migrator) : Migrator :=
  mg ++ [(id, m)].

End migrator.

Definition libraryPanelV1 : migrator.Table :=
  {| migrator.TableName := "library_panel";
     migrator.Columns :=
       [ {| migrator.Name := "id"; migrator.Type_ := migrator.DB_BigInt;
            migrator.Length := 0; migrator.Nullable := false;
            migrator.IsPrimaryKey := true; migrator.IsAutoIncrement := true |};
         {| migrator.Name := "org_id"; migrator.Type_ := migrator.DB_BigInt;
            migrator.Length := 0; migrator.Nullable := false;
            migrator.IsPrimaryKey := false; migrator.IsAutoIncrement := false |};
         {| migrator.Name := "folder_id"; migrator.Type_ := migrator.DB_BigInt;
            migrator.Length := 0; migrator.Nullable := false;
            migrator.IsPrimaryKey := false; migrator.IsAutoIncrement := false |};
         {| migrator.Name := "uid"; migrator.Type_ := migrator.DB_NVarchar;
            migrator.Length := 40; migrator.Nullable := false;
            migrator.IsPrimaryKey := false; migrator.IsAutoIncrement := false |};
         {| migrator.Name := "name"; migrator.Type_ := migrator.DB_NVarchar;
            migrator.Length := 255; migrator.Nullable := false;
            migrator.IsPrimaryKey := false; migrator.IsAutoIncrement := false |};
         {| migrator.Name := "model"; migrator.Type_ := migrator.DB_Text;
            migrator.Length := 0; migrator.Nullable := false;
            migrator.IsPrimaryKey := false; migrator.IsAutoIncrement := false |};
         {| migrator.Name := "created"; migrator.Type_ := migrator.DB_DateTime;
            migrator.Length := 0; migrator.Nullable := false;
            migrator.IsPrimaryKey := false; migrator.IsAutoIncrement := false |};
         {| migrator.Name := "created_by"; migrator.Type_ := migrator.DB_BigInt;
            migrator.Length := 0; migrator.Nullable := false;
            migrator.IsPrimaryKey := false; migrator.IsAutoIncrement := false |};
         {| migrator.Name := "updated"; migrator.Type_ := migrator.DB_DateTime;
            migrator.Length := 0; migrator.Nullable := false;
            migrator.IsPrimaryKey := false; migrator.IsAutoIncrement := false |};
         {| migrator.Name := "updated_by"; migrator.Type_ := migrator.DB_BigInt;
            migrator.Length := 0; migrator.Nullable := false;
            migrator.IsPrimaryKey := false; migrator.IsAutoIncrement := false |} ];
     migrator.Indices :=
       [ {| migrator.Cols := ["org_id"; "folder_id"; "name"];
            migrator.Kind := migrator.UniqueIndex |} ] |}.

Definition libraryPanelDashboardV1 : migrator.Table :=
  {| migrator.TableName := "library_panel_dashboard";
     migrator.Columns :=
       [ {| migrator.Name := "id"; migrator.Type_ := migrator.DB_BigInt;
            migrator.Length := 0; migrator.Nullable := false;
            migrator.IsPrimaryKey := true; migrator.IsAutoIncrement := true |};
         {| migrator.Name := "librarypanel_id"; migrator.Type_ := migrator.DB_BigInt;
            migrator.Length := 0; migrator.Nullable := false;
            migrator.IsPrimaryKey := false; migrator.IsAutoIncrement := false |};
         {| migrator.Name := "dashboard_id"; migrator.Type_ := migrator.DB_BigInt;
            migrator.Length := 0; migrator.Nullable := false;
            migrator.IsPrimaryKey := false; migrator.IsAutoIncrement := false |};
         {| migrator.Name := "created"; migrator.Type_ := migrator.DB_DateTime;
            migrator.Length := 0; migrator.Nullable := false;
            migrator.IsPrimaryKey := false; migrator.IsAutoIncrement := false |};
         {| migrator.Name := "created_by"; migrator.Type_ := migrator.DB_BigInt;
            migrator.Length := 0; migrator.Nullable := false;
            migrator.IsPrimaryKey := false; migrator.IsAutoIncrement := false |} ];
     migrator.Indices :=
       [ {| migrator.Cols := ["librarypanel_id"; "dashboard_id"];
            migrator.Kind := migrator.UniqueIndex |} ] |}.

(** The migrator after the call; [None] is the runtime panic of an
    index expression [Indices[0]] on an empty slice. *)
Definition AddMigration (lps : LibraryPanelService) (mg : migrator.Migrator)
    : option migrator.Migrator :=
  if negb (IsEnabled lps) then Some mg else
  let mg := migrator.AddMigration "create library_panel table v1"
              (migrator.NewAddTableMigration libraryPanelV1) mg in
  index ← migrator.Indices libraryPanelV1 !! 0%nat;
  let mg := migrator.AddMigration "add index library_panel org_id & folder_id & name"
              (migrator.NewAddIndexMigration libraryPanelV1 index) mg in
  let mg := migrator.AddMigration "create library_panel_dashboard table v1"
              (migrator.NewAddTableMigration libraryPanelDashboardV1) mg in
  index ← migrator.Indices libraryPanelDashboardV1 !! 0%nat;
  let mg := migrator.AddMigration
              "add index library_panel_dashboard librarypanel_id & dashboard_id"
              (migrator.NewAddIndexMigration libraryPanelDashboardV1 index) mg in
  Some mg.

(** A uid that the lookup result holds is the uid of the library panel
    it holds there. *)
Definition keyed (libraryPanels : gmap string LibraryPanel) : Prop :=
  ∀ uid p, libraryPanels !! uid = Some p → UID p = uid.

(** ** The scenario of the specification *)

Module Scenario.

Definition graph : any := map_literal [("type", JString "graph")].

Definition abc : LibraryPanel :=
  {| ID := 7; OrgID := 1; FolderID := 0; UID := "abc"; Name := "New Name";
     Model := Raw graph;
     Created := 0; CreatedBy := 1; Updated := 0; UpdatedBy := 1 |}.

Definition gridPos : any := map_literal [("x", JNumber "0"); ("y", JNumber "0")].

Definition entry : any :=
  map_literal [("id", JNumber "1"); ("gridPos", gridPos);
               ("libraryPanel", reference "abc" "Old Name")].

Definition document (panels : list any) : Json :=
  map_literal [("title", JString "Home"); ("panels", JArray panels)].

Definition dash : Dashboard := {| Id := 1; Uid := "d1"; Data := document [entry] |}.

Definition db : SQLStore :=
  {| library_panel := [abc];
     library_panel_dashboard :=
       [{| row_id := 1; librarypanel_id := 7; dashboard_id := 1;
           created := 0; created_by := 1 |}];
     clock := 10;
     outage := None;
     received := [] |}.

Definition on : LibraryPanelService := {| Cfg := Some {| PanelLibraryEnabled := true |} |}.
Definition off : LibraryPanelService := {| Cfg := Some {| PanelLibraryEnabled := false |} |}.

Definition c : ReqContext := {| UserId := 1; OrgId := 1 |}.

Definition expanded : any :=
  map_literal [("type", JString "graph"); ("id", JInt64 1); ("gridPos", gridPos);
               ("libraryPanel", reference "abc" "New Name")].

Definition collapsed : any :=
  map_literal [("id", JInt64 1); ("gridPos", gridPos);
               ("libraryPanel", reference "abc" "New Name")].

(** A dashboard that was never saved. *)
Definition unsaved : Dashboard := {| Id := 0; Uid := ""; Data := document [entry] |}.

(** An entry without a library reference. *)
Definition plain : any := map_literal [("id", JNumber "2"); ("type", JString "text")].

(** A library-linked entry whose uid is empty. *)
Definition broken : any :=
  map_literal [("id", JNumber "3"); ("libraryPanel", reference "" "No Uid")].

(** A library-linked entry whose uid no link row records. *)
Definition dangling : any :=
  map_literal [("id", JNumber "4"); ("libraryPanel", reference "zzz" "Gone")].

Definition on_dash (panels : list any) : Dashboard :=
  {| Id := 1; Uid := "d1"; Data := document panels |}.

(** A library panel whose content is a JSON array, and a database
    that links it to the dashboard. *)
Definition listing : LibraryPanel :=
  {| ID := 8; OrgID := 1; FolderID := 0; UID := "lst"; Name := "Listing";
     Model := Raw (JArray [JString "a"]);
     Created := 0; CreatedBy := 1; Updated := 0; UpdatedBy := 1 |}.

Definition listed : any :=
  map_literal [("id", JNumber "1"); ("gridPos", gridPos);
               ("libraryPanel", reference "lst" "Listing")].

Definition db_listing : SQLStore :=
  {| library_panel := [listing];
     library_panel_dashboard :=
       [{| row_id := 1; librarypanel_id := 8; dashboard_id := 1;
           created := 0; created_by := 1 |}];
     clock := 10;
     outage := None;
     received := [] |}.

(** A library panel whose content is not a JSON document at all. *)
Definition truncated : LibraryPanel :=
  {| ID := 9; OrgID := 1; FolderID := 0; UID := "cut"; Name := "Truncated";
     Model := Garbled (errors_New "unexpected EOF");
     Created := 0; CreatedBy := 1; Updated := 0; UpdatedBy := 1 |}.

Definition cut : any :=
  map_literal [("id", JNumber "1"); ("gridPos", gridPos);
               ("libraryPanel", reference "cut" "Truncated")].

Definition db_truncated : SQLStore :=
  {| library_panel := [truncated];
     library_panel_dashboard :=
       [{| row_id := 1; librarypanel_id := 9; dashboard_id := 1;
           created := 0; created_by := 1 |}];
     clock := 10;
     outage := None;
     received := [] |}.

(** The database before any dashboard is linked. *)
Definition fresh : SQLStore :=
  {| library_panel := [abc];
     library_panel_dashboard := [];
     clock := 10;
     outage := None;
     received := [] |}.

(** A library-linked entry whose id is there, as a string. *)
Definition stringly : any :=
  map_literal [("id", JString "7"); ("gridPos", gridPos);
               ("libraryPanel", reference "abc" "New Name")].

End Scenario.

(** ** The loops as list transformers *)

(** The document whose map [m] has [panels] as its panel array. *)
Definition set_panels (m : gmap string any) (panels : list any) : Json :=
  JMap (Some (<["panels" := JArray panels]> m)).

Definition put (i : nat) (replacement : option any) (panels : list any) : list any :=
  match replacement with
  | Some v => <[i := v]> panels
  | None => panels
  end.

(** What a round of Expand does to its entry: the entry that takes
    its place, if any, and how the round ends. *)
Definition expand (libraryPanels : gmap string LibraryPanel) (panel : any)
    : option any * flow :=
  if linked panel then
    if bool_decide (uid_of panel = "") then
      (None, Stop (Returns (Some (errors_New "found a library panel without uid"))))
    else
      match libraryPanels !! uid_of panel with
      | None =>
          (None, Stop (Returns (Some
             (errors_New "found a library panel that does not exists as a connection"))))
      | Some p =>
          match Model p with
          | Garbled err =>
              (None, Stop (Returns (Some
                 (fmt_Errorf "could not convert library panel to JSON: %w" err))))
          | Raw (JMap (Some content)) =>
              (Some (JMap (Some
                 (<["libraryPanel" := reference (UID p) (Name p)]>
                    (<["id" := JInt64 (MustInt64 (Get panel "id") 0)]>
                       (<["gridPos" := box (MustMap (Get panel "gridPos"))]> content))))),
               Continue)
          | Raw (JMap None) => (Some (JMap None), Stop Panics)
          | Raw document => (Some document, Continue)
          end
      end
  else (None, Continue).

(** What a round of Collapse does to the entry at index [i]. *)
Definition collapse (i : nat) (panel : any) : option any * flow :=
  if linked panel then
    if bool_decide (uid_of panel = "") then
      (None, Stop (Returns (Some (errors_New "found a library panel without uid"))))
    else if bool_decide (name_of panel = "") then
      (None, Stop (Returns (Some (errors_New "found a library panel without name"))))
    else
      (Some (map_literal
               [("id", JInt64 (MustInt64 (Get panel "id") (Z.of_nat i)));
                ("gridPos", box (MustMap (Get panel "gridPos")));
                ("libraryPanel", reference (uid_of panel) (name_of panel))]),
       Continue)
  else (None, Continue).

(** A loop over the entries from index [i] on, each round acting on
    its own entry only. *)
Fixpoint sweep (f : nat → any → option any * flow) (i : nat) (l : list any)
    : list any * outcome :=
  match l with
  | [] => ([], Returns None)
  | p :: l' =>
      match (f i p).2 with
      | Continue =>
          (default p (f i p).1 :: (sweep f (S i) l').1, (sweep f (S i) l').2)
      | Stop o => (default p (f i p).1 :: l', o)
      end
  end.

(** A loop over the entries that acts on a state of its own. *)
Fixpoint visit {St : Type} (body : nat → any → St → St * flow)
    (i : nat) (l : list any) (s : St) : St * outcome :=
  match l with
  | [] => (s, Returns None)
  | p :: l' =>
      match body i p s with
      | (s', Continue) => visit body (S i) l' s'
      | (s', Stop o) => (s', o)
      end
  end.

(** Every round over [l], started at index [i], falls through. *)
Definition passes (f : nat → any → option any * flow) (i : nat) (l : list any) : Prop :=
  ∀ j q, l !! j = Some q → (f (i + j)%nat q).2 = Continue.

(** The entries after a loop that went through all of them. *)
Definition swept (f : nat → any → option any * flow) (i : nat) (l : list any) : list any :=
  imap (λ j q, default q (f (i + j)%nat q).1) l.

Example expand_scenario :
  LoadLibraryPanelsForDashboard Scenario.on Scenario.dash Scenario.db =
    (with_data Scenario.dash (Scenario.document [Scenario.expanded]),
     receive (FetchLinkedPanels 1) Scenario.db, Returns None).
Proof. vm_compute. reflexivity. Qed.

Example collapse_scenario :
  CleanLibraryPanelsForDashboard Scenario.on
    (with_data Scenario.dash (Scenario.document [Scenario.expanded])) =
    (with_data Scenario.dash (Scenario.document [Scenario.collapsed]), Returns None).
Proof. vm_compute. reflexivity. Qed.

Example ParseInt_examples :
  ParseInt "42" = Some 42 ∧ ParseInt "-7" = Some (-7) ∧ ParseInt "1.5" = None ∧
  ParseInt "" = None ∧ ParseInt "-" = None ∧ ParseInt "1e3" = None ∧
  ParseInt "9223372036854775807" = Some 9223372036854775807 ∧
  ParseInt "9223372036854775808" = None ∧
  ParseInt "-9223372036854775808" = Some (-9223372036854775808).
Proof. vm_compute. repeat split. Qed.

(** ** simplejson: reads and writes through the panel array *)

Lemma len_0 (s : string) : len s = 0%nat ↔ s = "".
Proof. destruct s; simpl; split; intros; done. Qed.

Lemma panels_of_set_panels m a : panels_of (set_panels m a) = a.
Proof. unfold panels_of, set_panels, Get. simpl. by rewrite lookup_insert_eq. Qed.

Lemma set_panels_id m a : m !! "panels" = Some (JArray a) → JMap (Some m) = set_panels m a.
Proof. intros Hm. unfold set_panels. by rewrite insert_id. Qed.

Lemma at_key_panels m a (write : Json → option Json) :
  at_key "panels" write (set_panels m a) =
    v' ← write (JArray a); Some (JMap (Some (<["panels" := v']> m))).
Proof.
  unfold at_key, set_panels. simpl. rewrite lookup_insert_eq.
  destruct (write (JArray a)) as [v'|]; simpl; [|done].
  by rewrite insert_insert_eq.
Qed.

Lemma SetIndex_panels m a i v :
  (i < length a)%nat →
  at_key "panels" (SetIndex i v) (set_panels m a) = Some (set_panels m (<[i := v]> a)).
Proof.
  intros Hi. rewrite at_key_panels. unfold SetIndex. simpl.
  by rewrite bool_decide_eq_true_2.
Qed.

Lemma Set_elem_panels m a i key val elem :
  (i < length a)%nat →
  at_key "panels" (at_index i (Set_ key val)) (set_panels m (<[i := elem]> a)) =
    elem' ← Set_ key val elem; Some (set_panels m (<[i := elem']> a)).
Proof.
  intros Hi. rewrite at_key_panels. unfold at_index. simpl.
  rewrite list_lookup_insert_eq by done.
  destruct (Set_ key val elem); simpl; [|done].
  by rewrite list_insert_insert_eq.
Qed.

Lemma loadPanel_expand libraryPanels m a i panel :
  (i < length a)%nat →
  loadPanel libraryPanels i panel (set_panels m a) =
    (set_panels m (put i (expand libraryPanels panel).1 a), (expand libraryPanels panel).2).
Proof.
  intros Hi. unfold loadPanel, expand, linked, uid_of, NewFromAny, Interface, fail.
  destruct (is_nil (Get panel "libraryPanel")); simpl; [done|].
  set (uid := MustString (Get (Get panel "libraryPanel") "uid")).
  destruct (decide (uid = "")) as [Hu|Hu].
  { rewrite !bool_decide_eq_true_2; [done..|by apply len_0]. }
  rewrite !bool_decide_eq_false_2; [|done|by rewrite len_0].
  destruct (libraryPanels !! uid) as [p|]; [|done].
  destruct (Model p) as [document|err]; simpl; [|done].
  unfold write_then. rewrite SetIndex_panels by done.
  destruct document as [| | | | | |[content|]];
    repeat (rewrite Set_elem_panels by done; simpl); done.
Qed.

Lemma cleanPanel_collapse m a i panel :
  (i < length a)%nat →
  cleanPanel i panel (set_panels m a) =
    (set_panels m (put i (collapse i panel).1 a), (collapse i panel).2).
Proof.
  intros Hi. unfold cleanPanel, collapse, linked, uid_of, name_of, NewFromAny, Interface, fail.
  destruct (is_nil (Get panel "libraryPanel")); simpl; [done|].
  set (uid := MustString (Get (Get panel "libraryPanel") "uid")).
  set (name := MustString (Get (Get panel "libraryPanel") "name")).
  destruct (decide (uid = "")) as [Hu|Hu].
  { rewrite !bool_decide_eq_true_2; [done..|by apply len_0]. }
  rewrite !(bool_decide_eq_false_2 (uid = "")), !(bool_decide_eq_false_2 (len uid = 0%nat));
    [|by rewrite len_0|done].
  destruct (decide (name = "")) as [Hn|Hn].
  { rewrite !bool_decide_eq_true_2; [done..|by apply len_0]. }
  rewrite !bool_decide_eq_false_2; [|done|by rewrite len_0].
  unfold write_then. by rewrite SetIndex_panels by done.
Qed.

(** ** The range loop *)

Lemma range_visit {St : Type} (body : nat → any → St → St * flow) pre l s :
  range (λ _, pre ++ l) body (length pre) (length l) s = visit body (length pre) l s.
Proof.
  revert pre s. induction l as [|p l IH]; intros pre s; [done|]. simpl.
  rewrite list_lookup_middle by done.
  destruct (body (length pre) p s) as [s' [|o]]; [|done].
  specialize (IH (pre ++ [p]) s').
  rewrite <- app_assoc, length_app, Nat.add_1_r in IH. apply IH.
Qed.

Lemma range_sweep body f m pre l :
  (∀ i panel a, (i < length a)%nat →
     body i panel (set_panels m a) = (set_panels m (put i (f i panel).1 a), (f i panel).2)) →
  range panels_of body (length pre) (length l) (set_panels m (pre ++ l)) =
    (set_panels m (pre ++ (sweep f (length pre) l).1), (sweep f (length pre) l).2).
Proof.
  intros Hbody. revert pre. induction l as [|p l IH]; intros pre; [done|]. simpl.
  rewrite panels_of_set_panels, list_lookup_middle by done.
  rewrite Hbody by (rewrite length_app; simpl; lia).
  assert (Hput : put (length pre) (f (length pre) p).1 (pre ++ p :: l) =
                 (pre ++ [default p (f (length pre) p).1]) ++ l).
  { rewrite <- app_assoc. simpl. destruct (f (length pre) p).1 as [v|]; simpl; [|done].
    by rewrite insert_app_r_alt, Nat.sub_diag by done. }
  rewrite Hput.
  destruct (f (length pre) p).2 as [|o]; simpl.
  - specialize (IH (pre ++ [default p (f (length pre) p).1])).
    rewrite length_app, Nat.add_1_r in IH. rewrite IH. by rewrite <- app_assoc.
  - by rewrite <- app_assoc.
Qed.

(** ** Loops that act on one entry per round *)

Lemma passes_nil f i : passes f i [].
Proof. intros j q Hj. by rewrite lookup_nil in Hj. Qed.

Lemma passes_cons f i p l :
  passes f i (p :: l) ↔ (f i p).2 = Continue ∧ passes f (S i) l.
Proof.
  split.
  - intros H. split.
    + specialize (H 0%nat p eq_refl). by rewrite Nat.add_0_r in H.
    + intros j q Hj. specialize (H (S j) q Hj). by rewrite Nat.add_succ_r in H.
  - intros [H0 H] [|j] q Hj; simplify_eq/=.
    + by rewrite Nat.add_0_r.
    + rewrite Nat.add_succ_r. by apply H.
Qed.

Lemma swept_cons f i p l :
  swept f i (p :: l) = default p (f i p).1 :: swept f (S i) l.
Proof.
  unfold swept. rewrite imap_cons, Nat.add_0_r. f_equal.
  apply imap_ext. intros j q _. simpl. by rewrite Nat.add_succ_r.
Qed.

Lemma sweep_length f i l : length (sweep f i l).1 = length l.
Proof.
  revert i. induction l as [|p l IH]; intros i; [done|]. simpl.
  destruct (f i p).2; simpl; by rewrite ?IH.
Qed.

Lemma sweep_passes f i l : passes f i l → sweep f i l = (swept f i l, Returns None).
Proof.
  revert i. induction l as [|p l IH]; intros i H; [done|].
  apply passes_cons in H as [H0 H]. rewrite swept_cons. simpl. rewrite H0.
  by rewrite (IH _ H).
Qed.

Lemma sweep_stops f i pre p post o :
  passes f i pre → (f (i + length pre)%nat p).2 = Stop o →
  sweep f i (pre ++ p :: post) =
    (swept f i pre ++ default p (f (i + length pre)%nat p).1 :: post, o).
Proof.
  revert i. induction pre as [|q pre IH]; intros i H Hp.
  - simpl in *. rewrite Nat.add_0_r in *. by rewrite Hp.
  - apply passes_cons in H as [H0 H]. rewrite swept_cons. simpl in *. rewrite H0.
    rewrite Nat.add_succ_r in *. by rewrite (IH (S i) H Hp).
Qed.

Lemma sweep_cases f i l :
  passes f i l ∨
  ∃ pre p post o, l = pre ++ p :: post ∧ passes f i pre ∧
                  (f (i + length pre)%nat p).2 = Stop o.
Proof.
  revert i. induction l as [|p l IH]; intros i.
  - left. apply passes_nil.
  - destruct (f i p).2 as [|o] eqn:Hp.
    + destruct (IH (S i)) as [H|(pre & q & post & o & -> & H & Hq)].
      * left. by apply passes_cons.
      * right. exists (p :: pre), q, post, o. split; [done|]. split.
        -- by apply passes_cons.
        -- simpl. by rewrite Nat.add_succ_r.
    + right. exists [], p, l, o. split; [done|]. split; [apply passes_nil|].
      simpl. by rewrite Nat.add_0_r.
Qed.

Lemma swept_length f i l : length (swept f i l) = length l.
Proof. unfold swept. by rewrite length_imap. Qed.

(** ** Documents with and without a panel array *)

Lemma document_cases data :
  (∃ m a, data = set_panels m a ∧ panels_of data = a ∧
          ∀ a', with_panels data a' = set_panels m a') ∨
  (panels_of data = [] ∧ ∀ a', with_panels data a' = data).
Proof.
  destruct data as [| | | | | |[m|]]; try (right; split; done).
  destruct (m !! "panels") as [v|] eqn:Hm.
  - destruct v as [| | | | |a|];
      try (right; split; [unfold panels_of, Get; simpl; by rewrite Hm
                         |intros a'; simpl; by rewrite Hm]).
    left. exists m, a. split; [by apply set_panels_id|]. split.
    + unfold panels_of, Get. simpl. by rewrite Hm.
    + intros a'. simpl. by rewrite Hm.
  - right. split; [unfold panels_of, Get; simpl; by rewrite Hm|].
    intros a'. simpl. by rewrite Hm.
Qed.

Lemma panels_of_with_panels data a :
  length a = length (panels_of data) → panels_of (with_panels data a) = a.
Proof.
  intros Hlen. destruct (document_cases data) as [(m & a0 & -> & _ & Hw)|[Hnil Hw]].
  - by rewrite Hw, panels_of_set_panels.
  - rewrite Hw, Hnil. rewrite Hnil in Hlen. by destruct a.
Qed.

Lemma with_panels_twice data a b :
  with_panels (with_panels data a) b = with_panels data b.
Proof.
  destruct (document_cases data) as [(m & a0 & -> & _ & Hw)|[Hnil Hw]].
  - rewrite !Hw. unfold set_panels. simpl. rewrite lookup_insert_eq.
    by rewrite insert_insert_eq.
  - by rewrite !Hw.
Qed.

Lemma range_document body f data :
  (∀ m i panel a, (i < length a)%nat →
     body i panel (set_panels m a) = (set_panels m (put i (f i panel).1 a), (f i panel).2)) →
  range panels_of body 0 (length (panels_of data)) data =
    (with_panels data (sweep f 0 (panels_of data)).1, (sweep f 0 (panels_of data)).2).
Proof.
  intros Hbody. destruct (document_cases data) as [(m & a & -> & Ha & Hw)|[Hnil Hw]].
  - rewrite Ha, Hw. apply (range_sweep body f m [] a), Hbody.
  - by rewrite Hnil, Hw.
Qed.

(** ** The three calls, with the feature on *)

Section Calls.
Context {DB : Type} `{!ReferenceStore DB}.

Lemma Load_sweep lps dash (db db' : DB) libraryPanels :
  IsEnabled lps = true →
  getLibraryPanelsForDashboardID (Id dash) db = (db', inl libraryPanels) →
  LoadLibraryPanelsForDashboard lps dash db =
    (with_data dash
       (with_panels (Data dash)
          (sweep (λ _, expand libraryPanels) 0 (panels_of (Data dash))).1),
     db',
     (sweep (λ _, expand libraryPanels) 0 (panels_of (Data dash))).2).
Proof.
  intros Hon Hget. unfold LoadLibraryPanelsForDashboard. rewrite Hon, Hget. simpl.
  rewrite (range_document _ (λ _, expand libraryPanels)); [done|].
  intros m i panel a Hi. by apply loadPanel_expand.
Qed.

Lemma Load_store_error lps dash (db db' : DB) err :
  IsEnabled lps = true →
  getLibraryPanelsForDashboardID (Id dash) db = (db', inr err) →
  LoadLibraryPanelsForDashboard lps dash db = (dash, db', Returns (Some err)).
Proof. intros Hon Hget. unfold LoadLibraryPanelsForDashboard. by rewrite Hon, Hget. Qed.

Lemma Connect_visit lps c dash (db : DB) :
  IsEnabled lps = true → Id dash ≠ 0 → Uid dash ≠ "" →
  ConnectLibraryPanelsForDashboard lps c dash db =
    visit (connectPanel c dash) 0 (panels_of (Data dash)) db.
Proof.
  intros Hon Hid Huid. unfold ConnectLibraryPanelsForDashboard. rewrite Hon. simpl.
  rewrite !bool_decide_eq_false_2 by done. simpl.
  apply (range_visit (connectPanel c dash) []).
Qed.

End Calls.

Lemma Clean_sweep lps dash :
  IsEnabled lps = true →
  CleanLibraryPanelsForDashboard lps dash =
    (with_data dash (with_panels (Data dash) (sweep collapse 0 (panels_of (Data dash))).1),
     (sweep collapse 0 (panels_of (Data dash))).2).
Proof.
  intros Hon. unfold CleanLibraryPanelsForDashboard. rewrite Hon. simpl.
  rewrite (range_document _ collapse); [done|].
  intros m i panel a Hi. by apply cleanPanel_collapse.
Qed.

(** ** One round of Expand *)

Lemma expand_plain libraryPanels panel :
  linked panel = false → expand libraryPanels panel = (None, Continue).
Proof. intros H. unfold expand. by rewrite H. Qed.

Lemma expand_no_uid libraryPanels panel :
  linked panel = true → uid_of panel = "" →
  expand libraryPanels panel =
    (None, Stop (Returns (Some (errors_New "found a library panel without uid")))).
Proof. intros H Hu. unfold expand. rewrite H. by rewrite bool_decide_eq_true_2. Qed.

Lemma expand_dangling libraryPanels panel :
  linked panel = true → uid_of panel ≠ "" → libraryPanels !! uid_of panel = None →
  expand libraryPanels panel =
    (None, Stop (Returns (Some
       (errors_New "found a library panel that does not exists as a connection")))).
Proof.
  intros H Hu Hl. unfold expand. rewrite H, Hl. by rewrite bool_decide_eq_false_2.
Qed.

Lemma expand_found libraryPanels panel p :
  linked panel = true → uid_of panel ≠ "" → libraryPanels !! uid_of panel = Some p →
  expand libraryPanels panel =
    match Model p with
    | Garbled err =>
        (None, Stop (Returns (Some
           (fmt_Errorf "could not convert library panel to JSON: %w" err))))
    | Raw (JMap (Some content)) =>
        (Some (JMap (Some
           (<["libraryPanel" := reference (UID p) (Name p)]>
              (<["id" := JInt64 (MustInt64 (Get panel "id") 0)]>
                 (<["gridPos" := box (MustMap (Get panel "gridPos"))]> content))))),
         Continue)
    | Raw (JMap None) => (Some (JMap None), Stop Panics)
    | Raw document => (Some document, Continue)
    end.
Proof.
  intros H Hu Hl. unfold expand. rewrite H, Hl. by rewrite bool_decide_eq_false_2.
Qed.

(** The cases of a round, by what the entry and the lookup hold. *)
Lemma expand_cases (libraryPanels : gmap string LibraryPanel) panel :
  linked panel = false ∨
  (linked panel = true ∧ uid_of panel = "") ∨
  (linked panel = true ∧ uid_of panel ≠ "" ∧ libraryPanels !! uid_of panel = None) ∨
  (∃ p, linked panel = true ∧ uid_of panel ≠ "" ∧
        libraryPanels !! uid_of panel = Some p).
Proof.
  destruct (linked panel); [|by left]. right.
  destruct (decide (uid_of panel = "")) as [Hu|Hu]; [by left|]. right.
  destruct (libraryPanels !! uid_of panel) as [p|]; [right; by exists p|by left].
Qed.

Lemma expand_passes libraryPanels panel :
  (expand libraryPanels panel).2 = Continue ↔ resolves libraryPanels panel.
Proof.
  split.
  - intros Hc.
    destruct (expand_cases libraryPanels panel)
      as [H|[[H Hu]|[(H & Hu & Hl)|(p & H & Hu & Hl)]]].
    + by left.
    + by rewrite expand_no_uid in Hc.
    + by rewrite expand_dangling in Hc.
    + right. rewrite (expand_found _ _ p) in Hc by done.
      destruct (Model p) as [document|err] eqn:Hm; [|done].
      exists p, document. repeat split; try done.
      intros ->. done.
  - intros [H|(p & document & Hu & Hl & Hm & Hd)].
    + by rewrite expand_plain.
    + destruct (linked panel) eqn:H; [|by rewrite expand_plain].
      rewrite (expand_found _ _ p), Hm by done.
      by destruct document as [| | | | | |[content|]].
Qed.

Lemma expand_dangling_inv libraryPanels panel err :
  (expand libraryPanels panel).2 = Stop (Returns (Some err)) → DanglingReference err →
  linked panel = true ∧ uid_of panel ≠ "" ∧ libraryPanels !! uid_of panel = None.
Proof.
  intros Hs ->.
  destruct (expand_cases libraryPanels panel)
    as [H|[[H Hu]|[(H & Hu & Hl)|(p & H & Hu & Hl)]]].
  - by rewrite expand_plain in Hs.
  - by rewrite expand_no_uid in Hs.
  - done.
  - rewrite (expand_found _ _ p) in Hs by done.
    destruct (Model p) as [[| | | | | |[content|]]|e]; done.
Qed.

(** A round that returns an error has not touched its entry. *)
Lemma expand_error_keeps libraryPanels panel r :
  (expand libraryPanels panel).2 = Stop (Returns r) →
  (expand libraryPanels panel).1 = None ∧ linked panel = true ∧ is_Some r.
Proof.
  intros Hs.
  destruct (expand_cases libraryPanels panel)
    as [H|[[H Hu]|[(H & Hu & Hl)|(p & H & Hu & Hl)]]].
  - by rewrite expand_plain in Hs.
  - rewrite expand_no_uid in Hs |- * by done. by simplify_eq/=.
  - rewrite expand_dangling in Hs |- * by done. by simplify_eq/=.
  - rewrite (expand_found _ _ p) in Hs |- * by done.
    destruct (Model p) as [[| | | | | |[content|]]|e]; by simplify_eq/=.
Qed.

(** ** One round of Collapse *)

Lemma collapse_plain i panel : linked panel = false → collapse i panel = (None, Continue).
Proof. intros H. unfold collapse. by rewrite H. Qed.

Lemma collapse_linked i panel :
  linked panel = true → uid_of panel ≠ "" → name_of panel ≠ "" →
  collapse i panel =
    (Some (map_literal
             [("id", JInt64 (MustInt64 (Get panel "id") (Z.of_nat i)));
              ("gridPos", box (MustMap (Get panel "gridPos")));
              ("libraryPanel", reference (uid_of panel) (name_of panel))]),
     Continue).
Proof.
  intros H Hu Hn. unfold collapse. rewrite H. by rewrite !bool_decide_eq_false_2.
Qed.

Lemma collapse_malformed i panel :
  linked panel = true → uid_of panel = "" ∨ name_of panel = "" →
  ∃ err, collapse i panel = (None, Stop (Returns (Some err))) ∧ MalformedReference err.
Proof.
  intros H Hbad. unfold collapse, MalformedReference. rewrite H.
  destruct (decide (uid_of panel = "")) as [Hu|Hu].
  - rewrite bool_decide_eq_true_2 by done. eauto.
  - rewrite bool_decide_eq_false_2 by done. destruct Hbad as [?|Hn]; [done|].
    rewrite bool_decide_eq_true_2 by done. eauto.
Qed.

Lemma collapse_cases panel :
  linked panel = false ∨
  (linked panel = true ∧ (uid_of panel = "" ∨ name_of panel = "")) ∨
  (linked panel = true ∧ uid_of panel ≠ "" ∧ name_of panel ≠ "").
Proof.
  destruct (linked panel); [|by left]. right.
  destruct (decide (uid_of panel = "")); [left; eauto|].
  destruct (decide (name_of panel = "")); [left; eauto|]. right; eauto.
Qed.

Lemma collapse_passes i panel :
  (collapse i panel).2 = Continue ↔ well_formed panel.
Proof.
  split.
  - intros Hc. destruct (collapse_cases panel) as [H|[[H Hbad]|(H & Hu & Hn)]].
    + by left.
    + destruct (collapse_malformed i panel H Hbad) as (err & He & _).
      by rewrite He in Hc.
    + by right.
  - intros [H|[Hu Hn]].
    + by rewrite collapse_plain.
    + destruct (linked panel) eqn:H; [|by rewrite collapse_plain].
      by rewrite collapse_linked.
Qed.

Lemma collapse_stop_inv i panel o :
  (collapse i panel).2 = Stop o →
  (collapse i panel).1 = None ∧ linked panel = true ∧
  ∃ err, o = Returns (Some err) ∧ MalformedReference err.
Proof.
  intros Hs. destruct (collapse_cases panel) as [H|[[H Hbad]|(H & Hu & Hn)]].
  - by rewrite collapse_plain in Hs.
  - destruct (collapse_malformed i panel H Hbad) as (err & He & Hm).
    rewrite He in Hs |- *. simplify_eq/=. eauto.
  - by rewrite collapse_linked in Hs.
Qed.

(** ** The feature gate *)

Section Gate.
Context {DB : Type} `{!ReferenceStore DB}.

Lemma gate_closed lps c dash (db : DB) :
  IsEnabled lps = false →
  LoadLibraryPanelsForDashboard lps dash db = (dash, db, Returns None) ∧
  CleanLibraryPanelsForDashboard lps dash = (dash, Returns None) ∧
  ConnectLibraryPanelsForDashboard lps c dash db = (db, Returns None).
Proof.
  intros Hoff.
  unfold LoadLibraryPanelsForDashboard, CleanLibraryPanelsForDashboard,
    ConnectLibraryPanelsForDashboard.
  by rewrite Hoff.
Qed.

End Gate.

(** ** Entries after a loop *)

Lemma sweep_app f i pre l :
  passes f i pre →
  sweep f i (pre ++ l) =
    (swept f i pre ++ (sweep f (i + length pre) l).1, (sweep f (i + length pre) l).2).
Proof.
  revert i. induction pre as [|q pre IH]; intros i H.
  - simpl. rewrite Nat.add_0_r. by destruct (sweep f i l).
  - apply passes_cons in H as [H0 H]. rewrite swept_cons. simpl. rewrite H0.
    rewrite (IH (S i) H). by rewrite Nat.add_succ_r.
Qed.

(** An entry is as it was, or as its own round left it. *)
Lemma sweep_lookup f i l j p :
  l !! j = Some p →
  (sweep f i l).1 !! j = Some p ∨
  (sweep f i l).1 !! j = Some (default p (f (i + j)%nat p).1).
Proof.
  revert i j. induction l as [|q l IH]; intros i [|j] Hj; simplify_eq/=.
  - right. rewrite Nat.add_0_r. by destruct (f i p).2.
  - destruct (f i q).2; simpl.
    + rewrite Nat.add_succ_r. by apply (IH (S i)).
    + by left.
Qed.

Lemma sweep_lookup_middle f pre p post :
  passes f 0 pre →
  (sweep f 0 (pre ++ p :: post)).1 !! length pre =
    Some (default p (f (length pre) p).1).
Proof.
  intros Hpre. rewrite (sweep_app f 0 pre) by done. simpl.
  rewrite lookup_app_r by (by rewrite swept_length).
  rewrite swept_length, Nat.sub_diag. by destruct (f (length pre) p).2.
Qed.

(** An entry that the loop reaches is as its round left it, whatever
    happens later. *)
Lemma sweep_lookup_reached f l i p :
  l !! i = Some p → passes f 0 (take i l) →
  (sweep f 0 l).1 !! i = Some (default p (f i p).1).
Proof.
  intros Hi Hpre.
  assert (Hlen : length (take i l) = i).
  { apply length_take_le. apply lookup_lt_Some in Hi. lia. }
  pose proof (sweep_lookup_middle f (take i l) p (drop (S i) l) Hpre) as H.
  by rewrite (take_drop_middle l i p Hi), Hlen in H.
Qed.

Lemma passes_Forall f (P : any → Prop) l i :
  (∀ j q, (f j q).2 = Continue ↔ P q) → passes f i l ↔ Forall P l.
Proof.
  intros Hf. rewrite Forall_lookup. unfold passes. split.
  - intros H j q Hj. by apply (Hf (i + j)%nat), H.
  - intros H j q Hj. by apply Hf, (H j).
Qed.

(** ** The panel array after a call *)

Lemma Clean_panels lps dash :
  IsEnabled lps = true →
  panels_of (Data (CleanLibraryPanelsForDashboard lps dash).1) =
    (sweep collapse 0 (panels_of (Data dash))).1.
Proof.
  intros Hon. rewrite Clean_sweep by done. simpl.
  apply panels_of_with_panels, sweep_length.
Qed.

Lemma passes_expand libraryPanels i l :
  passes (λ _, expand libraryPanels) i l ↔ Forall (resolves libraryPanels) l.
Proof. apply passes_Forall. intros _ q. apply expand_passes. Qed.

Lemma passes_collapse i l : passes collapse i l ↔ Forall well_formed l.
Proof. apply passes_Forall. intros j q. apply collapse_passes. Qed.

Section Expand.
Context {DB : Type} `{!ReferenceStore DB}.

Lemma Load_panels lps dash (db db' : DB) libraryPanels :
  IsEnabled lps = true →
  getLibraryPanelsForDashboardID (Id dash) db = (db', inl libraryPanels) →
  panels_of (Data (LoadLibraryPanelsForDashboard lps dash db).1.1) =
    (sweep (λ _, expand libraryPanels) 0 (panels_of (Data dash))).1.
Proof.
  intros Hon Hget. rewrite (Load_sweep _ _ _ _ _ Hon Hget). simpl.
  apply panels_of_with_panels, sweep_length.
Qed.

Lemma Load_returns lps dash (db db' : DB) libraryPanels :
  IsEnabled lps = true →
  getLibraryPanelsForDashboardID (Id dash) db = (db', inl libraryPanels) →
  (LoadLibraryPanelsForDashboard lps dash db).2 =
    (sweep (λ _, expand libraryPanels) 0 (panels_of (Data dash))).2.
Proof. intros Hon Hget. by rewrite (Load_sweep _ _ _ _ _ Hon Hget). Qed.

(** The round at index [i] decides what the call returns when it
    leaves the loop and every round before it fell through. *)
Lemma Load_stops_at lps dash (db db' : DB) libraryPanels i panel o :
  IsEnabled lps = true →
  getLibraryPanelsForDashboardID (Id dash) db = (db', inl libraryPanels) →
  panels_of (Data dash) !! i = Some panel →
  Forall (resolves libraryPanels) (take i (panels_of (Data dash))) →
  (expand libraryPanels panel).2 = Stop o →
  (LoadLibraryPanelsForDashboard lps dash db).2 = o.
Proof.
  intros Hon Hget Hi Hpre Hstop. rewrite (Load_returns _ _ _ _ _ Hon Hget).
  rewrite <- (take_drop_middle _ i panel Hi) at 1.
  rewrite (sweep_stops _ 0 _ _ _ o); [done| |done].
  by apply passes_expand.
Qed.

End Expand.

(** ** Which round a call stops at *)

(** A loop goes through every entry, or there is a first round that
    leaves it. *)
Lemma sweep_outcome f l :
  (passes f 0 l ∧ sweep f 0 l = (swept f 0 l, Returns None)) ∨
  ∃ i p o, l !! i = Some p ∧ passes f 0 (take i l) ∧ (f i p).2 = Stop o ∧
           sweep f 0 l =
             (swept f 0 (take i l) ++ default p (f i p).1 :: drop (S i) l, o).
Proof.
  destruct (sweep_cases f 0 l) as [H|(pre & p & post & o & -> & H & Hp)].
  - left. split; [done|]. by apply sweep_passes.
  - right. exists (length pre), p, o. simpl in Hp.
    assert (Hdrop : drop (S (length pre)) (pre ++ p :: post) = post).
    { rewrite (cons_middle p pre post), app_assoc.
      apply drop_app_length'. rewrite length_app. simpl. lia. }
    rewrite list_lookup_middle by done.
    rewrite take_app_length, Hdrop.
    repeat split; try done. by apply sweep_stops.
Qed.

Section Outcome.
Context {DB : Type} `{!ReferenceStore DB}.

Lemma Load_outcome lps dash (db db' : DB) libraryPanels :
  IsEnabled lps = true →
  getLibraryPanelsForDashboardID (Id dash) db = (db', inl libraryPanels) →
  (Forall (resolves libraryPanels) (panels_of (Data dash)) ∧
   (LoadLibraryPanelsForDashboard lps dash db).2 = Returns None) ∨
  ∃ i panel o,
    panels_of (Data dash) !! i = Some panel ∧
    Forall (resolves libraryPanels) (take i (panels_of (Data dash))) ∧
    (expand libraryPanels panel).2 = Stop o ∧
    (LoadLibraryPanelsForDashboard lps dash db).2 = o.
Proof.
  intros Hon Hget. rewrite (Load_returns _ _ _ _ _ Hon Hget).
  destruct (sweep_outcome (λ _, expand libraryPanels) (panels_of (Data dash)))
    as [[H Hs]|(i & p & o & Hi & H & Hp & Hs)].
  - left. rewrite Hs. split; [|done]. by apply passes_expand in H.
  - right. exists i, p, o. rewrite Hs. repeat split; try done.
    by apply passes_expand in H.
Qed.

End Outcome.

(** ** A call that fails *)

Lemma panels_of_with_panels_some data a i p :
  panels_of data !! i = Some p → panels_of (with_panels data a) = a.
Proof.
  intros Hi. destruct (document_cases data) as [(m & a0 & -> & _ & Hw)|[Hnil Hw]].
  - by rewrite Hw, panels_of_set_panels.
  - by rewrite Hnil in Hi.
Qed.

(** What a loop that leaves with an error at one entry has done: the
    entries before that entry are as a loop over them alone leaves
    them, the entry and those after it are untouched. *)
Lemma sweep_error f l err :
  (∀ i p r, (f i p).2 = Stop (Returns r) → (f i p).1 = None) →
  (sweep f 0 l).2 = Returns (Some err) →
  ∃ pre p post,
    l = pre ++ p :: post ∧ passes f 0 pre ∧
    (f (length pre) p).2 = Stop (Returns (Some err)) ∧
    (f (length pre) p).1 = None ∧
    (sweep f 0 l).1 = swept f 0 pre ++ p :: post.
Proof.
  intros Hkeeps Herr.
  destruct (sweep_outcome f l) as [[_ Hs]|(i & p & o & Hi & H & Hp & Hs)].
  - rewrite Hs in Herr. discriminate Herr.
  - rewrite Hs in Herr |- *. simpl in *. subst o.
    assert (Hlen : length (take i l) = i).
    { apply length_take_le. apply lookup_lt_Some in Hi. lia. }
    exists (take i l), p, (drop (S i) l). rewrite Hlen.
    split; [by rewrite take_drop_middle|].
    split; [done|]. split; [done|]. split; [by apply (Hkeeps _ _ _ Hp)|].
    by rewrite (Hkeeps _ _ _ Hp).
Qed.

(** The loop over the entries up to and with the one it stops at. *)
Lemma sweep_up_to f pre p o :
  passes f 0 pre → (f (length pre) p).2 = Stop o → (f (length pre) p).1 = None →
  sweep f 0 (pre ++ [p]) = (swept f 0 pre ++ [p], o).
Proof.
  intros Hpre Hp Hkeep. rewrite (sweep_stops f 0 pre p [] o) by done.
  simpl. by rewrite Hkeep.
Qed.

Section Failure.
Context {DB : Type} `{!ReferenceStore DB}.

Lemma Load_failure lps dash (db db' : DB) dash' err :
  LoadLibraryPanelsForDashboard lps dash db = (dash', db', Returns (Some err)) →
  (getLibraryPanelsForDashboardID (Id dash) db = (db', inr err) ∧ dash' = dash) ∨
  ∃ libraryPanels pre panel post pre',
    getLibraryPanelsForDashboardID (Id dash) db = (db', inl libraryPanels) ∧
    panels_of (Data dash) = pre ++ panel :: post ∧
    linked panel = true ∧ ¬ resolves libraryPanels panel ∧
    LoadLibraryPanelsForDashboard lps (with_data dash (with_panels (Data dash) pre)) db =
      (with_data dash (with_panels (Data dash) pre'), db', Returns None) ∧
    LoadLibraryPanelsForDashboard lps
        (with_data dash (with_panels (Data dash) (pre ++ [panel]))) db =
      (with_data dash (with_panels (Data dash) (pre' ++ [panel])), db',
       Returns (Some err)) ∧
    dash' = with_data dash (with_panels (Data dash) (pre' ++ panel :: post)).
Proof.
  intros Hload. destruct (IsEnabled lps) eqn:Hon.
  2:{ unfold LoadLibraryPanelsForDashboard in Hload. rewrite Hon in Hload.
      simpl in Hload. by simplify_eq. }
  destruct (getLibraryPanelsForDashboardID (Id dash) db) as [db1 [lp|e]] eqn:Hget.
  2:{ left. rewrite (Load_store_error _ _ _ _ _ Hon Hget) in Hload. by simplify_eq. }
  right. rewrite (Load_sweep _ _ _ _ _ Hon Hget) in Hload.
  injection Hload as Hdash Hdb Hret. subst db1.
  destruct (sweep_error (λ _, expand lp) (panels_of (Data dash)) err)
    as (pre & p & post & Hl & Hpre & Hp & Hkeep & Hs).
  { intros _ q r Hq. by apply expand_error_keeps in Hq as [? _]. }
  { done. }
  exists lp, pre, p, post, (swept (λ _, expand lp) 0 pre).
  split; [done|]. split; [done|].
  split; [by apply expand_error_keeps in Hp as (_ & ? & _)|].
  split; [intros Hres; apply expand_passes in Hres; simpl in Hp; congruence|].
  assert (Hmid : panels_of (Data dash) !! length pre = Some p)
    by (rewrite Hl; by apply list_lookup_middle).
  split; [|split].
  - rewrite (Load_sweep lps (with_data dash (with_panels (Data dash) pre)) db db' lp)
      by done.
    simpl. rewrite (panels_of_with_panels_some _ _ _ _ Hmid).
    by rewrite (sweep_passes _ 0 pre), with_panels_twice.
  - rewrite (Load_sweep lps (with_data dash (with_panels (Data dash) (pre ++ [p])))
               db db' lp) by done.
    simpl. rewrite (panels_of_with_panels_some _ _ _ _ Hmid).
    by rewrite (sweep_up_to _ pre p (Returns (Some err))), with_panels_twice.
  - by rewrite <- Hdash, Hs.
Qed.

End Failure.

Lemma Clean_failure lps dash dash' err :
  CleanLibraryPanelsForDashboard lps dash = (dash', Returns (Some err)) →
  ∃ pre panel post pre',
    panels_of (Data dash) = pre ++ panel :: post ∧
    linked panel = true ∧ ¬ well_formed panel ∧
    CleanLibraryPanelsForDashboard lps (with_data dash (with_panels (Data dash) pre)) =
      (with_data dash (with_panels (Data dash) pre'), Returns None) ∧
    CleanLibraryPanelsForDashboard lps
        (with_data dash (with_panels (Data dash) (pre ++ [panel]))) =
      (with_data dash (with_panels (Data dash) (pre' ++ [panel])), Returns (Some err)) ∧
    dash' = with_data dash (with_panels (Data dash) (pre' ++ panel :: post)).
Proof.
  intros Hclean. destruct (IsEnabled lps) eqn:Hon.
  2:{ unfold CleanLibraryPanelsForDashboard in Hclean. rewrite Hon in Hclean.
      simpl in Hclean. by simplify_eq. }
  rewrite (Clean_sweep _ _ Hon) in Hclean. injection Hclean as Hdash Hret.
  destruct (sweep_error collapse (panels_of (Data dash)) err)
    as (pre & p & post & Hl & Hpre & Hp & Hkeep & Hs).
  { intros i q r Hq. by apply collapse_stop_inv in Hq as [? _]. }
  { done. }
  exists pre, p, post, (swept collapse 0 pre).
  split; [done|]. split; [by apply collapse_stop_inv in Hp as (_ & ? & _)|].
  split; [intros Hwf; apply (collapse_passes (length pre)) in Hwf; congruence|].
  assert (Hmid : panels_of (Data dash) !! length pre = Some p)
    by (rewrite Hl; by apply list_lookup_middle).
  split; [|split].
  - rewrite (Clean_sweep lps (with_data dash (with_panels (Data dash) pre))) by done.
    simpl. rewrite (panels_of_with_panels_some _ _ _ _ Hmid).
    by rewrite (sweep_passes _ 0 pre), with_panels_twice.
  - rewrite (Clean_sweep lps (with_data dash (with_panels (Data dash) (pre ++ [p]))))
      by done.
    simpl. rewrite (panels_of_with_panels_some _ _ _ _ Hmid).
    by rewrite (sweep_up_to _ pre p (Returns (Some err))), with_panels_twice.
  - by rewrite <- Hdash, Hs.
Qed.

(** ** Collapse after Expand, entry by entry *)

Lemma Get_insert_eq m key v : Get (JMap (Some (<[key := v]> m))) key = v.
Proof. unfold Get. simpl. by rewrite lookup_insert_eq. Qed.

Lemma Get_insert_ne m key key' v :
  key ≠ key' → Get (JMap (Some (<[key := v]> m))) key' = Get (JMap (Some m)) key'.
Proof. intros Hne. unfold Get. simpl. by rewrite lookup_insert_ne. Qed.

Lemma reference_uid uid name : MustString (Get (reference uid name) "uid") = uid.
Proof. unfold reference, map_literal. simpl. by rewrite Get_insert_eq. Qed.

Lemma reference_name uid name : MustString (Get (reference uid name) "name") = name.
Proof.
  unfold reference, map_literal. simpl.
  rewrite Get_insert_ne by done. by rewrite Get_insert_eq.
Qed.

(** Collapse does to an entry that Expand has overlaid what it does to
    the entry itself, when the entry is in step with the lookup. *)
Lemma collapse_expand libraryPanels i panel :
  in_step libraryPanels panel →
  (expand libraryPanels panel).2 = Continue ∧
  (collapse i panel).2 = Continue ∧
  collapse i (default panel (expand libraryPanels panel).1) = collapse i panel ∧
  default (default panel (expand libraryPanels panel).1) (collapse i panel).1 =
    default panel (collapse i panel).1.
Proof.
  intros Hstep. destruct (linked panel) eqn:Hl.
  2:{ rewrite expand_plain, collapse_plain by done. simpl.
      by rewrite collapse_plain. }
  destruct (Hstep Hl) as (p & content & Hu & Hp & Huid & Hname & Hn & Hm & [z Hz]).
  rewrite (expand_found _ _ p), Hm by done. simpl.
  rewrite (collapse_linked i panel) by done. simpl.
  split; [done|]. split; [done|]. split; [|done].
  set (overlaid := JMap _).
  assert (Hlib : Get overlaid "libraryPanel" = reference (UID p) (Name p))
    by apply Get_insert_eq.
  assert (Hid : Get overlaid "id" = JInt64 (MustInt64 (Get panel "id") 0)).
  { unfold overlaid. rewrite Get_insert_ne by done. apply Get_insert_eq. }
  assert (Hgrid : Get overlaid "gridPos" = box (MustMap (Get panel "gridPos"))).
  { unfold overlaid. rewrite !Get_insert_ne by done. apply Get_insert_eq. }
  rewrite collapse_linked.
  - unfold uid_of, name_of. rewrite Hlib, Hid, Hgrid, reference_uid, reference_name.
    fold (uid_of panel) (name_of panel). rewrite Huid, Hname.
    unfold MustInt64. simpl. by rewrite Hz.
  - unfold linked. by rewrite Hlib.
  - unfold uid_of. rewrite Hlib, reference_uid. congruence.
  - unfold name_of. rewrite Hlib, reference_name. congruence.
Qed.

Lemma swept_swept f g i l :
  (∀ j q, l !! j = Some q →
     default (default q (g (i + j)%nat q).1) (f (i + j)%nat (default q (g (i + j)%nat q).1)).1 =
     default q (f (i + j)%nat q).1) →
  swept f i (swept g i l) = swept f i l.
Proof.
  intros H. apply list_eq. intros j. unfold swept. rewrite !list_lookup_imap.
  destruct (l !! j) as [q|] eqn:Hj; simpl; [|done]. f_equal. by apply H.
Qed.

Lemma passes_swept f g i l :
  (∀ j q, l !! j = Some q →
     (f (i + j)%nat (default q (g (i + j)%nat q).1)).2 = Continue) →
  passes f i (swept g i l).
Proof.
  intros H j q' Hj. unfold swept in Hj. rewrite list_lookup_imap in Hj.
  destruct (l !! j) as [q|] eqn:Hq; simplify_eq/=. by apply H.
Qed.

(** ** Link: the upsert *)

Lemma links_pair a b row : links a b row = true ↔ pair_of row = (a, b).
Proof.
  unfold links, pair_of. rewrite andb_true_iff, !bool_decide_eq_true.
  split; [intros [-> ->]; done|intros [= -> ->]; done].
Qed.

Lemma existsb_links a b rows :
  existsb (links a b) rows = true ↔ (a, b) ∈ pair_of <$> rows.
Proof.
  rewrite existsb_exists, list_elem_of_fmap. split.
  - intros (row & Hin & Hrow). exists row. apply links_pair in Hrow.
    split; [done|]. by apply list_elem_of_In.
  - intros (row & Hrow & Hin). exists row. split; [by apply list_elem_of_In|].
    by apply links_pair.
Qed.

Lemma no_link_rows a b rows :
  (a, b) ∉ pair_of <$> rows → filter (λ row, links a b row = true) rows = [].
Proof.
  induction rows as [|row rows IH]; intros Hnot; [done|].
  rewrite fmap_cons, not_elem_of_cons in Hnot. destruct Hnot as [Hne Hnot].
  rewrite filter_cons_False; [by apply IH|].
  rewrite links_pair. congruence.
Qed.

(** Under the unique index a linked pair has exactly one row. *)
Lemma one_link_row a b rows :
  NoDup (pair_of <$> rows) → existsb (links a b) rows = true →
  length (filter (λ row, links a b row = true) rows) = 1%nat.
Proof.
  induction rows as [|row rows IH]; intros Hnd Hex; [done|].
  rewrite fmap_cons in Hnd. apply NoDup_cons in Hnd as [Hfresh Hnd].
  destruct (decide (pair_of row = (a, b))) as [Hrow|Hrow].
  - rewrite filter_cons_True by (by apply links_pair).
    rewrite Hrow in Hfresh. by rewrite no_link_rows.
  - rewrite filter_cons_False by (by rewrite links_pair).
    apply IH; [done|]. simpl in Hex. apply orb_true_iff in Hex as [Hex|Hex]; [|done].
    by apply links_pair in Hex.
Qed.

(** An upsert that succeeds: the pair is linked afterwards, what was
    linked stays linked, and the unique index is kept. *)
Lemma upsertLink_ok c uid dashboardID db db1 :
  upsertLink c uid dashboardID db = (db1, None) →
  library_panel db1 = library_panel db ∧ outage db1 = outage db ∧
  outage db = None ∧
  (∃ p, byUID db uid = Some p ∧
        existsb (links (ID p) dashboardID) (library_panel_dashboard db1) = true) ∧
  (∀ a b, existsb (links a b) (library_panel_dashboard db) = true →
          existsb (links a b) (library_panel_dashboard db1) = true) ∧
  (unique_index (library_panel_dashboard db) →
   unique_index (library_panel_dashboard db1)).
Proof.
  unfold upsertLink. intros Hup.
  destruct (outage db) as [err|] eqn:Hout; [done|].
  destruct (byUID db uid) as [p|] eqn:Hp; [|done].
  destruct (existsb (links (ID p) dashboardID) (library_panel_dashboard db)) eqn:Hex;
    simplify_eq/=.
  - repeat split; try done. by exists p.
  - repeat split; try done.
    + exists p. split; [done|]. rewrite existsb_app. simpl.
      unfold links at 2. simpl. by rewrite !bool_decide_eq_true_2, orb_true_r.
    + intros a b Hab. rewrite existsb_app. by rewrite Hab.
    + unfold unique_index. fold pair_of. rewrite fmap_app. simpl. intros Hnd.
      apply NoDup_app. split; [done|]. split; [|apply NoDup_singleton].
      intros pr Hpr Hin. apply list_elem_of_singleton in Hin. subst pr.
      unfold pair_of at 1 in Hpr. simpl in Hpr.
      apply existsb_links in Hpr. congruence.
Qed.

(** An upsert of a pair that is linked already: no error, no row. *)
Lemma upsertLink_again c uid dashboardID db p :
  outage db = None → byUID db uid = Some p →
  existsb (links (ID p) dashboardID) (library_panel_dashboard db) = true →
  upsertLink c uid dashboardID db = (receive (UpsertLink uid dashboardID) db, None).
Proof. intros Hout Hp Hex. unfold upsertLink. by rewrite Hout, Hp, Hex. Qed.

(** ** Link: the loop *)

Lemma connectPanel_plain c dash i panel (db : SQLStore) :
  linked panel = false → connectPanel c dash i panel db = (db, Continue).
Proof.
  unfold linked, connectPanel, NewFromAny, Interface.
  by destruct (is_nil (Get panel "libraryPanel")).
Qed.

Lemma connectPanel_linked c dash i panel (db : SQLStore) :
  linked panel = true → uid_of panel ≠ "" →
  connectPanel c dash i panel db =
    match upsertLink c (uid_of panel) (Id dash) db with
    | (db, Some err) => (db, Stop (Returns (Some err)))
    | (db, None) => (db, Continue)
    end.
Proof.
  unfold linked, uid_of, connectPanel, NewFromAny, Interface. intros Hl Hu.
  destruct (is_nil (Get panel "libraryPanel")); [done|].
  rewrite bool_decide_eq_false_2; [done|]. by rewrite len_0.
Qed.

Lemma connectPanel_no_uid c dash i panel (db : SQLStore) :
  linked panel = true → uid_of panel = "" →
  connectPanel c dash i panel db =
    (db, Stop (Returns (Some (errors_New "found a library panel without uid")))).
Proof.
  unfold linked, uid_of, connectPanel, NewFromAny, Interface. intros Hl Hu.
  destruct (is_nil (Get panel "libraryPanel")); [done|].
  rewrite bool_decide_eq_true_2; [done|]. by rewrite len_0.
Qed.

Lemma byUID_tables db db' uid :
  library_panel db' = library_panel db → byUID db' uid = byUID db uid.
Proof. unfold byUID. by intros ->. Qed.

Lemma visit_connect_ok c dash l i db db1 :
  visit (connectPanel c dash) i l db = (db1, Returns None) →
  library_panel db1 = library_panel db ∧ outage db1 = outage db ∧
  (∀ a b, existsb (links a b) (library_panel_dashboard db) = true →
          existsb (links a b) (library_panel_dashboard db1) = true) ∧
  (unique_index (library_panel_dashboard db) →
   unique_index (library_panel_dashboard db1)) ∧
  (∀ panel, panel ∈ l → linked panel = true → linked_in db1 (Id dash) panel).
Proof.
  revert i db. induction l as [|q l IH]; intros i db Hvisit.
  - simpl in Hvisit. simplify_eq.
    split; [done|]. split; [done|]. split; [done|]. split; [done|].
    intros panel Hin. by apply not_elem_of_nil in Hin.
  - simpl in Hvisit. destruct (linked q) eqn:Hl.
    + destruct (decide (uid_of q = "")) as [Hu|Hu].
      { by rewrite connectPanel_no_uid in Hvisit. }
      rewrite connectPanel_linked in Hvisit by done.
      destruct (upsertLink c (uid_of q) (Id dash) db) as [db' [err|]] eqn:Hup; [done|].
      apply upsertLink_ok in Hup as (Hlp & Hout & Hnone & (p & Hp & Hex) & Hmono & Huniq).
      apply IH in Hvisit as (Hlp' & Hout' & Hmono' & Huniq' & Hall).
      split; [congruence|]. split; [congruence|]. split; [by auto|]. split; [by auto|].
      intros panel Hin Hpl. apply elem_of_cons in Hin as [->|Hin]; [|by apply Hall].
      split; [done|]. split; [congruence|]. exists p. split; [|by auto].
      rewrite <- Hp. apply byUID_tables. congruence.
    + rewrite connectPanel_plain in Hvisit by done.
      apply IH in Hvisit as (Hlp' & Hout' & Hmono' & Huniq' & Hall).
      split; [done|]. split; [done|]. split; [done|]. split; [done|].
      intros panel Hin Hpl. apply elem_of_cons in Hin as [->|Hin]; [congruence|].
      by apply Hall.
Qed.

Lemma visit_connect_again c dash l i db :
  (∀ panel, panel ∈ l → linked panel = true → linked_in db (Id dash) panel) →
  ∃ db2, visit (connectPanel c dash) i l db = (db2, Returns None) ∧
         library_panel db2 = library_panel db ∧
         library_panel_dashboard db2 = library_panel_dashboard db ∧
         outage db2 = outage db.
Proof.
  revert i db. induction l as [|q l IH]; intros i db Hall; [by exists db|]. simpl.
  destruct (linked q) eqn:Hl.
  - destruct (Hall q) as (Hu & Hout & p & Hp & Hex); [by left|done|].
    rewrite connectPanel_linked by done.
    rewrite (upsertLink_again _ _ _ _ p) by done.
    destruct (IH (S i) (receive (UpsertLink (uid_of q) (Id dash)) db))
      as (db2 & Hvisit & Hlp & Hrows & Hout2).
    { intros panel Hin Hpl.
      destruct (Hall panel) as (Hu' & _ & p' & Hp' & Hex'); [by right|done|].
      split; [done|]. split; [done|]. by exists p'. }
    exists db2. by rewrite Hvisit.
  - rewrite connectPanel_plain by done.
    destruct (IH (S i) db) as (db2 & Hvisit & Hrest).
    { intros panel Hin Hpl. apply Hall; [by right|done]. }
    by exists db2.
Qed.

(** * The claims *)

(** ** Round trip *)

(** C1, as stated, fails on the scenario of the specification itself:
    the entry names its library panel "Old Name", the lookup result
    holds it under the entry's uid as "New Name"; Expand refreshes the
    name, so collapsing the expanded dashboard keeps "New Name" where
    collapsing the dashboard keeps "Old Name". *)
Lemma stale_name_diverges :
  let dash := Scenario.dash in
  let libraryPanels : gmap string LibraryPanel := {[ "abc" := Scenario.abc ]} in
  (getLibraryPanelsForDashboardID (Id dash) Scenario.db).2 = inl libraryPanels ∧
  Forall (λ panel, linked panel = true →
                   uid_of panel ≠ "" ∧ is_Some (libraryPanels !! uid_of panel))
    (panels_of (Data dash)) ∧
  CleanLibraryPanelsForDashboard Scenario.on
      (LoadLibraryPanelsForDashboard Scenario.on dash Scenario.db).1.1 =
    (with_data dash (Scenario.document [Scenario.collapsed]), Returns None) ∧
  CleanLibraryPanelsForDashboard Scenario.on dash =
    (with_data dash
       (Scenario.document
          [map_literal [("id", JInt64 1); ("gridPos", Scenario.gridPos);
                        ("libraryPanel", reference "abc" "Old Name")]]),
     Returns None) ∧
  CleanLibraryPanelsForDashboard Scenario.on
      (LoadLibraryPanelsForDashboard Scenario.on dash Scenario.db).1.1 ≠
    CleanLibraryPanelsForDashboard Scenario.on dash.
Proof.
  intros dash libraryPanels. split; [vm_compute; reflexivity|]. split.
  { apply Forall_cons_2; [|apply Forall_nil_2]. intros _. split.
    - intros H. vm_compute in H. discriminate H.
    - exists Scenario.abc. vm_compute. reflexivity. }
  split; [vm_compute; reflexivity|]. split; [vm_compute; reflexivity|].
  intros H.
  apply (f_equal (λ r, name_of (default JNil (panels_of (Data r.1) !! 0%nat)))) in H.
  vm_compute in H. discriminate H.
Qed.

(** C1, amended.  For every dashboard whose library-linked entries are
    in step with the Panel Lookup result (each has an integer id, a
    non-empty name and a non-empty uid that the lookup result maps to a
    library panel with that uid and that name, whose content is a JSON
    object), Collapse(Expand(d)) equals Collapse(d): the same document
    and the same nil error. *)
Theorem Collapse_after_Expand (DB : Type) (RS : ReferenceStore DB)
    (lps : LibraryPanelService) (dash : Dashboard) (db db' : DB)
    (libraryPanels : gmap string LibraryPanel) :
  getLibraryPanelsForDashboardID (Id dash) db = (db', inl libraryPanels) →
  Forall (in_step libraryPanels) (panels_of (Data dash)) →
  CleanLibraryPanelsForDashboard lps (LoadLibraryPanelsForDashboard lps dash db).1.1 =
    CleanLibraryPanelsForDashboard lps dash.
Proof.
  intros Hget Hstep. destruct (IsEnabled lps) eqn:Hon.
  2:{ unfold LoadLibraryPanelsForDashboard. by rewrite Hon. }
  rewrite Forall_lookup in Hstep.
  set (l := panels_of (Data dash)) in *.
  set (f := λ _ : nat, expand libraryPanels).
  assert (Hexpand : sweep f 0 l = (swept f 0 l, Returns None)).
  { apply sweep_passes. intros j q Hj.
    by destruct (collapse_expand libraryPanels j q (Hstep j q Hj)) as [? _]. }
  assert (Hcollapse : sweep collapse 0 l = (swept collapse 0 l, Returns None)).
  { apply sweep_passes. intros j q Hj.
    by destruct (collapse_expand libraryPanels j q (Hstep j q Hj)) as (_ & ? & _). }
  assert (Hagain : sweep collapse 0 (swept f 0 l) = (swept collapse 0 l, Returns None)).
  { rewrite sweep_passes.
    - f_equal. apply swept_swept. intros j q Hj. simpl.
      destruct (collapse_expand libraryPanels j q (Hstep j q Hj)) as (_ & _ & He & Hd).
      unfold f. by rewrite He.
    - apply passes_swept. intros j q Hj. simpl.
      destruct (collapse_expand libraryPanels j q (Hstep j q Hj)) as (_ & Hc & He & _).
      unfold f. by rewrite He. }
  rewrite (Load_sweep _ _ _ _ _ Hon Hget). fold l f. rewrite Hexpand. simpl.
  rewrite !Clean_sweep by done. simpl. fold l.
  rewrite panels_of_with_panels by (by rewrite swept_length).
  by rewrite Hagain, Hcollapse, with_panels_twice.
Qed.

Lemma Collapse_after_Expand_witness :
  let dash := Scenario.on_dash [Scenario.expanded; Scenario.plain] in
  CleanLibraryPanelsForDashboard Scenario.on
      (LoadLibraryPanelsForDashboard Scenario.on dash Scenario.db).1.1 =
    CleanLibraryPanelsForDashboard Scenario.on dash.
Proof.
  intros dash.
  apply (Collapse_after_Expand SQLStore _ Scenario.on dash Scenario.db
           (receive (FetchLinkedPanels 1) Scenario.db) {[ "abc" := Scenario.abc ]}).
  - vm_compute. reflexivity.
  - apply Forall_cons_2; [|apply Forall_cons_2; [|apply Forall_nil_2]].
    + intros _. exists Scenario.abc, {[ "type" := JString "graph" ]}.
      split; [intros H; vm_compute in H; discriminate H|].
      split; [vm_compute; reflexivity|]. split; [vm_compute; reflexivity|].
      split; [vm_compute; reflexivity|].
      split; [intros H; vm_compute in H; discriminate H|].
      split; [vm_compute; reflexivity|]. exists 1. vm_compute. reflexivity.
    + intros H. vm_compute in H. discriminate H.
Defined.

(** ** A call that fails *)

(** C2, as stated, fails: the entries are rewritten in place, one
    round after the other, and nothing is undone when a later round
    leaves with an error.  Here Expand fails at the second entry and
    the first is expanded in the dashboard that the caller holds. *)
Lemma Expand_fails_half_way :
  let dash := Scenario.on_dash [Scenario.entry; Scenario.broken] in
  let after := LoadLibraryPanelsForDashboard Scenario.on dash Scenario.db in
  after.2 = Returns (Some (errors_New "found a library panel without uid")) ∧
  panels_of (Data dash) !! 0%nat = Some Scenario.entry ∧
  panels_of (Data after.1.1) !! 0%nat = Some Scenario.expanded ∧
  after.1.1 ≠ dash.
Proof.
  intros dash after. split; [vm_compute; reflexivity|].
  split; [vm_compute; reflexivity|]. split; [vm_compute; reflexivity|].
  intros H.
  apply (f_equal (λ d, name_of (default JNil (panels_of (Data d) !! 0%nat)))) in H.
  vm_compute in H. discriminate H.
Qed.

(** C2, amended.  When Expand returns an error that comes from the
    Panel Lookup, the dashboard is unchanged.  When Expand or Collapse
    returns an error at an entry, that is at the first entry that does
    not resolve (for Collapse: that is malformed), that entry and every
    later entry are unchanged and so is the document outside the panel
    array, but the entries before it stay transformed, nothing is
    rolled back: they are exactly as a call that succeeds on those
    entries alone leaves them.  The error is the one that the call
    returns on the entries up to and with the failing one. *)
Theorem failed_call_keeps_earlier_entries (DB : Type) (RS : ReferenceStore DB)
    (lps : LibraryPanelService) (dash : Dashboard) (db : DB) :
  (∀ dash' db' err,
     LoadLibraryPanelsForDashboard lps dash db = (dash', db', Returns (Some err)) →
     (getLibraryPanelsForDashboardID (Id dash) db = (db', inr err) ∧ dash' = dash) ∨
     ∃ libraryPanels pre panel post pre',
       getLibraryPanelsForDashboardID (Id dash) db = (db', inl libraryPanels) ∧
       panels_of (Data dash) = pre ++ panel :: post ∧
       linked panel = true ∧ ¬ resolves libraryPanels panel ∧
       LoadLibraryPanelsForDashboard lps
           (with_data dash (with_panels (Data dash) pre)) db =
         (with_data dash (with_panels (Data dash) pre'), db', Returns None) ∧
       LoadLibraryPanelsForDashboard lps
           (with_data dash (with_panels (Data dash) (pre ++ [panel]))) db =
         (with_data dash (with_panels (Data dash) (pre' ++ [panel])), db',
          Returns (Some err)) ∧
       dash' = with_data dash (with_panels (Data dash) (pre' ++ panel :: post))) ∧
  (∀ dash' err,
     CleanLibraryPanelsForDashboard lps dash = (dash', Returns (Some err)) →
     ∃ pre panel post pre',
       panels_of (Data dash) = pre ++ panel :: post ∧
       linked panel = true ∧ ¬ well_formed panel ∧
       CleanLibraryPanelsForDashboard lps
           (with_data dash (with_panels (Data dash) pre)) =
         (with_data dash (with_panels (Data dash) pre'), Returns None) ∧
       CleanLibraryPanelsForDashboard lps
           (with_data dash (with_panels (Data dash) (pre ++ [panel]))) =
         (with_data dash (with_panels (Data dash) (pre' ++ [panel])),
          Returns (Some err)) ∧
       dash' = with_data dash (with_panels (Data dash) (pre' ++ panel :: post))).
Proof.
  split.
  - intros dash' db' err. apply Load_failure.
  - intros dash' err. apply Clean_failure.
Qed.

Lemma failed_call_keeps_earlier_entries_witness :
  let dash := Scenario.on_dash [Scenario.entry; Scenario.broken] in
  let after := LoadLibraryPanelsForDashboard Scenario.on dash Scenario.db in
  after.1.1 = Scenario.on_dash [Scenario.expanded; Scenario.broken] ∧
  ∃ libraryPanels pre panel post pre',
    getLibraryPanelsForDashboardID (Id dash) Scenario.db =
      (receive (FetchLinkedPanels 1) Scenario.db, inl libraryPanels) ∧
    panels_of (Data dash) = pre ++ panel :: post ∧
    linked panel = true ∧ ¬ resolves libraryPanels panel ∧
    LoadLibraryPanelsForDashboard Scenario.on
        (with_data dash (with_panels (Data dash) pre)) Scenario.db =
      (with_data dash (with_panels (Data dash) pre'),
       receive (FetchLinkedPanels 1) Scenario.db, Returns None) ∧
    LoadLibraryPanelsForDashboard Scenario.on
        (with_data dash (with_panels (Data dash) (pre ++ [panel]))) Scenario.db =
      (with_data dash (with_panels (Data dash) (pre' ++ [panel])),
       receive (FetchLinkedPanels 1) Scenario.db,
       Returns (Some (errors_New "found a library panel without uid"))) ∧
    Scenario.on_dash [Scenario.expanded; Scenario.broken] =
      with_data dash (with_panels (Data dash) (pre' ++ panel :: post)).
Proof.
  intros dash after. split; [vm_compute; reflexivity|].
  destruct (failed_call_keeps_earlier_entries SQLStore _ Scenario.on dash Scenario.db)
    as [Hexpand _].
  destruct (Hexpand (Scenario.on_dash [Scenario.expanded; Scenario.broken])
              (receive (FetchLinkedPanels 1) Scenario.db)
              (errors_New "found a library panel without uid"))
    as [[Hget _]|Hhalf].
  - vm_compute. reflexivity.
  - vm_compute in Hget. discriminate Hget.
  - exact Hhalf.
Defined.

(** On a dashboard where Expand fails at the second entry, the
    dashboard as it was before the call is not what the statement
    above allows for the dashboard after the call. *)
Example failed_call_is_not_rolled_back :
  let dash := Scenario.on_dash [Scenario.entry; Scenario.broken] in
  ¬ ∃ libraryPanels pre panel post pre',
      getLibraryPanelsForDashboardID (Id dash) Scenario.db =
        (receive (FetchLinkedPanels 1) Scenario.db, inl libraryPanels) ∧
      panels_of (Data dash) = pre ++ panel :: post ∧
      linked panel = true ∧ ¬ resolves libraryPanels panel ∧
      LoadLibraryPanelsForDashboard Scenario.on
          (with_data dash (with_panels (Data dash) pre)) Scenario.db =
        (with_data dash (with_panels (Data dash) pre'),
         receive (FetchLinkedPanels 1) Scenario.db, Returns None) ∧
      dash = with_data dash (with_panels (Data dash) (pre' ++ panel :: post)).
Proof.
  intros dash (lp & pre & panel & post & pre' & Hget & Hl & Hlinked & Hfails & Hpre & Hdash).
  assert (Hlp : lp = {[ "abc" := Scenario.abc ]}).
  { assert (H : getLibraryPanelsForDashboardID (Id dash) Scenario.db =
                (receive (FetchLinkedPanels 1) Scenario.db,
                 inl {[ "abc" := Scenario.abc ]})) by (vm_compute; reflexivity).
    rewrite H in Hget. by simplify_eq. }
  subst lp.
  assert (Hpanels : panels_of (Data dash) = [Scenario.entry; Scenario.broken])
    by (vm_compute; reflexivity).
  rewrite Hpanels in Hl.
  destruct pre as [|q [|q' pre]]; simpl in Hl.
  - injection Hl as <- <-.
    apply Hfails. right. exists Scenario.abc, Scenario.graph.
    split; [intros H; vm_compute in H; discriminate H|].
    split; [vm_compute; reflexivity|]. split; [reflexivity|]. intros H. discriminate H.
  - injection Hl as <- <- <-.
    assert (H : panels_of (Data (LoadLibraryPanelsForDashboard Scenario.on
                  (with_data dash (with_panels (Data dash) [Scenario.entry]))
                  Scenario.db).1.1) = [Scenario.expanded]) by (vm_compute; reflexivity).
    rewrite Hpre in H.
    change (panels_of (with_panels (Data dash) pre') = [Scenario.expanded]) in H.
    rewrite (panels_of_with_panels_some _ _ 0%nat Scenario.entry) in H
      by (vm_compute; reflexivity).
    subst pre'.
    apply (f_equal (λ d, name_of (default JNil (panels_of (Data d) !! 0%nat)))) in Hdash.
    vm_compute in Hdash. discriminate Hdash.
  - injection Hl as _ _ Hl. by destruct pre.
Qed.

(** ** What Expand writes *)

(** C3, as stated, fails: the content of a library panel is whatever
    its [model] column holds.  When it is a JSON array, Expand returns
    a nil error and the entry is that array, without [libraryPanel],
    [id] or [gridPos]: a write of a key into something else than an
    object does nothing.  When it does not decode, Expand returns the
    conversion error and the entry is not replaced. *)
Lemma Expand_array_content :
  let dash := Scenario.on_dash [Scenario.listed] in
  let after := LoadLibraryPanelsForDashboard Scenario.on dash Scenario.db_listing in
  let dash' := Scenario.on_dash [Scenario.cut] in
  let after' := LoadLibraryPanelsForDashboard Scenario.on dash' Scenario.db_truncated in
  (linked Scenario.listed = true ∧ uid_of Scenario.listed = "lst" ∧
   (getLibraryPanelsForDashboardID (Id dash) Scenario.db_listing).2 =
     inl {[ "lst" := Scenario.listing ]} ∧
   after.2 = Returns None ∧
   panels_of (Data after.1.1) !! 0%nat = Some (JArray [JString "a"]) ∧
   Get (JArray [JString "a"]) "libraryPanel" = JNil ∧
   Get (JArray [JString "a"]) "id" = JNil ∧
   Get (JArray [JString "a"]) "gridPos" = JNil) ∧
  (linked Scenario.cut = true ∧ uid_of Scenario.cut = "cut" ∧
   (getLibraryPanelsForDashboardID (Id dash') Scenario.db_truncated).2 =
     inl {[ "cut" := Scenario.truncated ]} ∧
   after'.2 = Returns (Some (fmt_Errorf "could not convert library panel to JSON: %w"
                               (errors_New "unexpected EOF"))) ∧
   panels_of (Data after'.1.1) !! 0%nat = Some Scenario.cut).
Proof. vm_compute. repeat split. Qed.

(** C3, amended.  With the feature on and the Panel Lookup done, a
    library-linked entry whose non-empty uid is found in the lookup
    map, and whose library panel has a JSON object as content, is
    replaced (once the loop reaches it: every earlier entry resolves)
    by that content with [gridPos] set to the entry's own object (the
    nil map when it has none), [id] to the entry's integer id (0 when
    it has none) and [libraryPanel] to the uid and the current name of
    the library panel found.  An entry without a library reference is
    left as it is.  The call returns a nil error exactly when every
    entry resolves. *)
Theorem Expand_overlays_entries (DB : Type) (RS : ReferenceStore DB)
    (lps : LibraryPanelService) (dash : Dashboard) (db db' : DB)
    (libraryPanels : gmap string LibraryPanel) :
  IsEnabled lps = true →
  getLibraryPanelsForDashboardID (Id dash) db = (db', inl libraryPanels) →
  let after := LoadLibraryPanelsForDashboard lps dash db in
  (∀ i panel,
     panels_of (Data dash) !! i = Some panel → linked panel = false →
     panels_of (Data after.1.1) !! i = Some panel) ∧
  (∀ i panel p content,
     panels_of (Data dash) !! i = Some panel → linked panel = true →
     uid_of panel ≠ "" → libraryPanels !! uid_of panel = Some p →
     Model p = Raw (JMap (Some content)) →
     Forall (resolves libraryPanels) (take i (panels_of (Data dash))) →
     panels_of (Data after.1.1) !! i =
       Some (JMap (Some
         (<["libraryPanel" := reference (UID p) (Name p)]>
            (<["id" := JInt64 (default 0 (Int64 (Get panel "id")))]>
               (<["gridPos" := box (MustMap (Get panel "gridPos"))]> content)))))) ∧
  (after.2 = Returns None ↔ Forall (resolves libraryPanels) (panels_of (Data dash))).
Proof.
  intros Hon Hget after. subst after.
  rewrite (Load_panels _ _ _ _ _ Hon Hget), (Load_returns _ _ _ _ _ Hon Hget).
  split; [|split].
  - intros i panel Hi Hplain.
    destruct (sweep_lookup (λ _, expand libraryPanels) 0 _ i panel Hi) as [H|H]; [done|].
    rewrite H. simpl. by rewrite expand_plain.
  - intros i panel p content Hi Hl Hu Hp Hm Hpre.
    rewrite (sweep_lookup_reached _ _ i panel Hi) by (by apply passes_expand).
    rewrite (expand_found _ _ p), Hm by done. simpl. unfold MustInt64.
    by destruct (Int64 (Get panel "id")).
  - split.
    + intros Hret.
      destruct (sweep_outcome (λ _, expand libraryPanels) (panels_of (Data dash)))
        as [[H _]|(i & q & o & _ & _ & Hq & Hs)]; [by apply passes_expand in H|].
      rewrite Hs in Hret. simpl in Hret. subst o.
      by apply expand_error_keeps in Hq as (_ & _ & [? ?]).
    + intros Hall. rewrite sweep_passes; [done|]. by apply passes_expand.
Qed.

Lemma Expand_overlays_entries_witness :
  let dash := Scenario.on_dash [Scenario.entry; Scenario.plain] in
  let after := LoadLibraryPanelsForDashboard Scenario.on dash Scenario.db in
  panels_of (Data after.1.1) !! 0%nat = Some Scenario.expanded ∧
  panels_of (Data after.1.1) !! 1%nat = Some Scenario.plain ∧
  after.2 = Returns None.
Proof.
  intros dash after.
  assert (Hget : getLibraryPanelsForDashboardID (Id dash) Scenario.db =
                 (receive (FetchLinkedPanels 1) Scenario.db,
                  inl {[ "abc" := Scenario.abc ]}))
    by (vm_compute; reflexivity).
  destruct (Expand_overlays_entries SQLStore _ Scenario.on dash Scenario.db
              _ _ eq_refl Hget)
    as (Hplain & Hlinked & Hreturns).
  split; [|split].
  - etrans.
    + apply (Hlinked 0%nat Scenario.entry Scenario.abc
               {[ "type" := JString "graph" ]}); try (vm_compute; reflexivity).
      * intros H. vm_compute in H. discriminate H.
      * apply Forall_nil_2.
    + vm_compute. reflexivity.
  - apply (Hplain 1%nat Scenario.plain); reflexivity.
  - apply Hreturns.
    apply Forall_cons_2; [|apply Forall_cons_2; [|apply Forall_nil_2]].
    + right. exists Scenario.abc, Scenario.graph.
      split; [intros H; vm_compute in H; discriminate H|].
      split; [reflexivity|]. split; [reflexivity|]. intros H. discriminate H.
    + left. reflexivity.
Defined.

(** ** What Collapse writes *)

(** C4, as stated, fails.  Collapse leaves at the first malformed
    entry: a library-linked entry with a non-empty uid and name that
    comes after it is not replaced and keeps every field it had.  And
    the index takes the place not only of an id that is absent but
    also of one that is there and is not an int64 integer. *)
Lemma Collapse_stops_before_later_entries :
  let dash := Scenario.on_dash [Scenario.broken; Scenario.expanded] in
  let after := CleanLibraryPanelsForDashboard Scenario.on dash in
  let dash' := Scenario.on_dash [Scenario.plain; Scenario.stringly] in
  let after' := CleanLibraryPanelsForDashboard Scenario.on dash' in
  (panels_of (Data dash) !! 1%nat = Some Scenario.expanded ∧
   linked Scenario.expanded = true ∧
   uid_of Scenario.expanded = "abc" ∧ name_of Scenario.expanded = "New Name" ∧
   after.2 = Returns (Some (errors_New "found a library panel without uid")) ∧
   panels_of (Data after.1) !! 1%nat = Some Scenario.expanded ∧
   Get Scenario.expanded "type" = JString "graph") ∧
  (panels_of (Data dash') !! 1%nat = Some Scenario.stringly ∧
   linked Scenario.stringly = true ∧
   uid_of Scenario.stringly = "abc" ∧ name_of Scenario.stringly = "New Name" ∧
   Get Scenario.stringly "id" = JString "7" ∧
   after'.2 = Returns None ∧
   Get (default JNil (panels_of (Data after'.1) !! 1%nat)) "id" = JInt64 1).
Proof. vm_compute. repeat split. Qed.

(** C4, amended.  With the feature on, Collapse puts in the place of
    every library-linked entry with a non-empty uid and name that its
    loop reaches (no earlier entry is malformed, as is the case
    whenever the call returns a nil error) exactly
    [{id, gridPos, libraryPanel: {uid, name}}], where [id] is the
    entry's id when that is an int64 integer and the entry's index in
    the array otherwise (the id is absent, or is no int64 integer),
    and [gridPos] is the entry's own object (the nil map when it has
    none); nothing else of the entry is kept.  An entry without a
    library reference is left as it is, whatever the call returns.
    The call returns a nil error exactly when no entry is
    malformed. *)
Theorem Collapse_reduces_entries (lps : LibraryPanelService) (dash : Dashboard) :
  IsEnabled lps = true →
  let after := CleanLibraryPanelsForDashboard lps dash in
  (∀ i panel,
     panels_of (Data dash) !! i = Some panel → linked panel = true →
     uid_of panel ≠ "" → name_of panel ≠ "" →
     Forall well_formed (take i (panels_of (Data dash))) →
     panels_of (Data after.1) !! i =
       Some (map_literal
               [("id", JInt64 (default (Z.of_nat i) (Int64 (Get panel "id"))));
                ("gridPos", box (MustMap (Get panel "gridPos")));
                ("libraryPanel", reference (uid_of panel) (name_of panel))])) ∧
  (∀ i panel,
     panels_of (Data dash) !! i = Some panel → linked panel = false →
     panels_of (Data after.1) !! i = Some panel) ∧
  (after.2 = Returns None ↔ Forall well_formed (panels_of (Data dash))).
Proof.
  intros Hon after. subst after. rewrite Clean_panels by done.
  split; [|split].
  - intros i panel Hi Hl Hu Hn Hpre.
    rewrite (sweep_lookup_reached collapse _ i panel Hi).
    + rewrite collapse_linked by done. simpl. unfold MustInt64.
      by destruct (Int64 (Get panel "id")).
    + by apply passes_collapse.
  - intros i panel Hi Hplain.
    destruct (sweep_lookup collapse 0 _ i panel Hi) as [H|H]; [done|].
    rewrite H. simpl. by rewrite collapse_plain.
  - rewrite Clean_sweep by done. simpl. split.
    + intros Hret.
      destruct (sweep_outcome collapse (panels_of (Data dash)))
        as [[H _]|(j & q & o & _ & _ & Hq & Hs)].
      * by apply passes_collapse in H.
      * rewrite Hs in Hret. simpl in Hret. subst o.
        by apply collapse_stop_inv in Hq as (_ & _ & err & ? & _).
    + intros Hall. rewrite sweep_passes; [done|]. by apply passes_collapse.
Qed.

Lemma Collapse_reduces_entries_witness :
  let dash :=
    Scenario.on_dash [Scenario.expanded; Scenario.plain; Scenario.stringly] in
  let after := CleanLibraryPanelsForDashboard Scenario.on dash in
  panels_of (Data after.1) !! 0%nat = Some Scenario.collapsed ∧
  panels_of (Data after.1) !! 1%nat = Some Scenario.plain ∧
  panels_of (Data after.1) !! 2%nat =
    Some (map_literal [("id", JInt64 2); ("gridPos", Scenario.gridPos);
                       ("libraryPanel", reference "abc" "New Name")]) ∧
  after.2 = Returns None.
Proof.
  intros dash after.
  destruct (Collapse_reduces_entries Scenario.on dash eq_refl)
    as (Hlinked & Hplain & Hreturns).
  assert (Huid : uid_of Scenario.expanded ≠ "")
    by (intros H; vm_compute in H; discriminate H).
  assert (Hname : name_of Scenario.expanded ≠ "")
    by (intros H; vm_compute in H; discriminate H).
  assert (Huid' : uid_of Scenario.stringly ≠ "")
    by (intros H; vm_compute in H; discriminate H).
  assert (Hname' : name_of Scenario.stringly ≠ "")
    by (intros H; vm_compute in H; discriminate H).
  assert (Hwf : well_formed Scenario.expanded) by (right; split; assumption).
  assert (Hwf' : well_formed Scenario.plain) by (left; reflexivity).
  split; [|split; [|split]].
  - etrans.
    + apply (Hlinked 0%nat Scenario.expanded); try assumption; try reflexivity.
      apply Forall_nil_2.
    + vm_compute. reflexivity.
  - apply (Hplain 1%nat Scenario.plain); reflexivity.
  - etrans.
    + apply (Hlinked 2%nat Scenario.stringly); try assumption; try reflexivity.
      apply Forall_cons_2; [assumption|]. apply Forall_cons_2; [assumption|].
      apply Forall_nil_2.
    + vm_compute. reflexivity.
  - apply Hreturns.
    apply Forall_cons_2; [assumption|]. apply Forall_cons_2; [assumption|].
    apply Forall_cons_2; [right; split; assumption|]. apply Forall_nil_2.
Defined.

(** ** Dangling references *)

(** C5, as stated, fails: an entry with a non-empty uid that the
    lookup does not hold comes after an entry with an empty uid, and
    Expand leaves at the first with the error of a missing uid. *)
Lemma Expand_dangling_after_malformed :
  let dash := Scenario.on_dash [Scenario.broken; Scenario.dangling] in
  (getLibraryPanelsForDashboardID (Id dash) Scenario.db).2 =
    inl {[ "abc" := Scenario.abc ]} ∧
  linked Scenario.dangling = true ∧ uid_of Scenario.dangling = "zzz" ∧
  ({[ "abc" := Scenario.abc ]} : gmap string LibraryPanel) !! "zzz" = None ∧
  (LoadLibraryPanelsForDashboard Scenario.on dash Scenario.db).2 =
    Returns (Some (errors_New "found a library panel without uid")) ∧
  ¬ DanglingReference (errors_New "found a library panel without uid").
Proof. vm_compute. repeat split. intros H. discriminate H. Qed.

(** C5, amended.  With the feature on and the Panel Lookup done,
    Expand fails with a dangling-reference error if and only if some
    library-linked entry has a non-empty uid that the lookup result
    does not hold and every entry before it resolves (it is plain, or
    its uid is not empty and found and the content of its library panel
    decodes). *)
Theorem Expand_dangling_iff (DB : Type) (RS : ReferenceStore DB)
    (lps : LibraryPanelService) (dash : Dashboard) (db db' : DB)
    (libraryPanels : gmap string LibraryPanel) :
  IsEnabled lps = true →
  getLibraryPanelsForDashboardID (Id dash) db = (db', inl libraryPanels) →
  (∃ err, (LoadLibraryPanelsForDashboard lps dash db).2 = Returns (Some err) ∧
          DanglingReference err) ↔
  (∃ i panel,
     panels_of (Data dash) !! i = Some panel ∧ linked panel = true ∧
     uid_of panel ≠ "" ∧ libraryPanels !! uid_of panel = None ∧
     Forall (resolves libraryPanels) (take i (panels_of (Data dash)))).
Proof.
  intros Hon Hget. split.
  - intros (err & Hret & Herr).
    destruct (Load_outcome _ _ _ _ _ Hon Hget)
      as [[_ Hnil]|(i & panel & o & Hi & Hpre & Hstop & Ho)].
    + rewrite Hnil in Hret. discriminate Hret.
    + rewrite Ho in Hret. subst o.
      destruct (expand_dangling_inv _ _ _ Hstop Herr) as (Hl & Hu & Hnone).
      by exists i, panel.
  - intros (i & panel & Hi & Hl & Hu & Hnone & Hpre). eexists. split.
    + apply (Load_stops_at _ _ _ _ _ i panel _ Hon Hget Hi Hpre).
      by rewrite expand_dangling.
    + reflexivity.
Qed.

Lemma Expand_dangling_iff_witness :
  ∃ err, (LoadLibraryPanelsForDashboard Scenario.on
            (Scenario.on_dash [Scenario.entry; Scenario.dangling]) Scenario.db).2 =
           Returns (Some err) ∧ DanglingReference err.
Proof.
  apply (Expand_dangling_iff SQLStore _ Scenario.on
           (Scenario.on_dash [Scenario.entry; Scenario.dangling]) Scenario.db
           (receive (FetchLinkedPanels 1) Scenario.db) {[ "abc" := Scenario.abc ]}).
  - reflexivity.
  - vm_compute. reflexivity.
  - exists 1%nat, Scenario.dangling.
    split; [reflexivity|]. split; [reflexivity|].
    split; [intros H; vm_compute in H; discriminate H|].
    split; [vm_compute; reflexivity|].
    apply Forall_cons_2; [|apply Forall_nil_2].
    right. exists Scenario.abc, Scenario.graph.
    split; [intros H; vm_compute in H; discriminate H|].
    split; [vm_compute; reflexivity|]. split; [reflexivity|]. intros H. discriminate H.
Defined.

(** ** Malformed references *)

(** C6, as stated, fails for Expand: an entry with an empty uid comes
    after an entry whose uid the lookup does not hold, and Expand
    leaves at the first with the dangling-reference error. *)
Lemma Expand_malformed_after_dangling :
  let dash := Scenario.on_dash [Scenario.dangling; Scenario.broken] in
  linked Scenario.broken = true ∧ uid_of Scenario.broken = "" ∧
  (LoadLibraryPanelsForDashboard Scenario.on dash Scenario.db).2 =
    Returns (Some
      (errors_New "found a library panel that does not exists as a connection")) ∧
  ¬ MalformedReference
      (errors_New "found a library panel that does not exists as a connection").
Proof.
  vm_compute. repeat split. intros [H|H]; discriminate H.
Qed.

(** C6, amended.  With the feature on, Expand fails with a
    malformed-reference error when the Panel Lookup succeeds and some
    library-linked entry has an empty uid and every entry before it
    resolves; Collapse fails with a malformed-reference error when
    some library-linked entry has an empty uid or an empty name. *)
Theorem malformed_reference_fails (DB : Type) (RS : ReferenceStore DB)
    (lps : LibraryPanelService) (dash : Dashboard) (db : DB) :
  IsEnabled lps = true →
  (∀ db' libraryPanels i panel,
     getLibraryPanelsForDashboardID (Id dash) db = (db', inl libraryPanels) →
     panels_of (Data dash) !! i = Some panel →
     linked panel = true → uid_of panel = "" →
     Forall (resolves libraryPanels) (take i (panels_of (Data dash))) →
     ∃ err, (LoadLibraryPanelsForDashboard lps dash db).2 = Returns (Some err) ∧
            MalformedReference err) ∧
  (∀ panel,
     panel ∈ panels_of (Data dash) →
     linked panel = true → uid_of panel = "" ∨ name_of panel = "" →
     ∃ err, (CleanLibraryPanelsForDashboard lps dash).2 = Returns (Some err) ∧
            MalformedReference err).
Proof.
  intros Hon. split.
  - intros db' libraryPanels i panel Hget Hi Hl Hu Hpre. eexists. split.
    + apply (Load_stops_at _ _ _ _ _ i panel _ Hon Hget Hi Hpre).
      by rewrite expand_no_uid.
    + by left.
  - intros panel Hin Hl Hbad. rewrite Clean_sweep by done. simpl.
    destruct (sweep_outcome collapse (panels_of (Data dash)))
      as [[H _]|(i & p & o & Hi & H & Hp & Hs)].
    + apply passes_collapse in H. rewrite Forall_forall in H.
      destruct (H panel Hin) as [Hplain|[Hu Hn]]; [congruence|].
      destruct Hbad; done.
    + rewrite Hs. simpl.
      destruct (collapse_stop_inv _ _ _ Hp) as (_ & _ & err & -> & Herr).
      by exists err.
Qed.

Lemma malformed_reference_fails_witness :
  (∃ err, (LoadLibraryPanelsForDashboard Scenario.on
             (Scenario.on_dash [Scenario.entry; Scenario.broken]) Scenario.db).2 =
            Returns (Some err) ∧ MalformedReference err) ∧
  (∃ err, (CleanLibraryPanelsForDashboard Scenario.on
             (Scenario.on_dash [Scenario.entry; Scenario.broken])).2 =
            Returns (Some err) ∧ MalformedReference err).
Proof.
  destruct (malformed_reference_fails SQLStore _ Scenario.on
              (Scenario.on_dash [Scenario.entry; Scenario.broken]) Scenario.db eq_refl)
    as [Hexpand Hcollapse].
  split.
  - apply (Hexpand (receive (FetchLinkedPanels 1) Scenario.db)
             {[ "abc" := Scenario.abc ]} 1%nat Scenario.broken);
      try (vm_compute; reflexivity).
    apply Forall_cons_2; [|apply Forall_nil_2].
    right. exists Scenario.abc, Scenario.graph.
    split; [intros H; vm_compute in H; discriminate H|].
    split; [vm_compute; reflexivity|]. split; [reflexivity|]. intros H. discriminate H.
  - apply (Hcollapse Scenario.broken).
    + apply list_elem_of_lookup. exists 1%nat. reflexivity.
    + reflexivity.
    + left. reflexivity.
Defined.

(** ** Link: validation *)

(** C7, as stated, fails: with the feature off, Link on a dashboard
    with a zero identifier and an empty uid returns a nil error. *)
Lemma Link_unsaved_disabled :
  Id Scenario.unsaved = 0 ∧ Uid Scenario.unsaved = "" ∧
  ConnectLibraryPanelsForDashboard Scenario.off Scenario.c Scenario.unsaved Scenario.db =
    (Scenario.db, Returns None) ∧
  ¬ ∃ err db',
      ConnectLibraryPanelsForDashboard Scenario.off Scenario.c Scenario.unsaved Scenario.db =
        (db', Returns (Some err)).
Proof.
  repeat split. intros (err & db' & H). vm_compute in H. discriminate H.
Qed.

(** C7, amended.  With the feature on, Link on a dashboard with a zero
    identifier or an empty uid returns the validation error, whatever
    the panel array holds, and the database after the call is the
    database before it for every implementation of the database calls:
    no link row has been created and no call made. *)
Theorem Link_validates (DB : Type) (RS : ReferenceStore DB)
    (lps : LibraryPanelService) (c : ReqContext) (dash : Dashboard) (db : DB) :
  IsEnabled lps = true →
  Id dash = 0 ∨ Uid dash = "" →
  ∃ err, ValidationFailure err ∧
         ConnectLibraryPanelsForDashboard lps c dash db = (db, Returns (Some err)).
Proof.
  intros Hon Hbad. eexists. split; [reflexivity|].
  unfold ConnectLibraryPanelsForDashboard. rewrite Hon. simpl.
  destruct Hbad as [Hid|Huid].
  - by rewrite (bool_decide_eq_true_2 _ Hid).
  - rewrite (bool_decide_eq_true_2 _ Huid). by rewrite orb_true_r.
Qed.

Lemma Link_validates_witness :
  ∃ err, ValidationFailure err ∧
         ConnectLibraryPanelsForDashboard Scenario.on Scenario.c Scenario.unsaved Scenario.db =
           (Scenario.db, Returns (Some err)).
Proof.
  apply (Link_validates SQLStore _ Scenario.on Scenario.c Scenario.unsaved Scenario.db).
  - reflexivity.
  - left. reflexivity.
Defined.

(** ** Link: twice *)

(** C8, as stated, fails: with the feature off Link returns a nil
    error twice and the link table has no row for the pair. *)
Lemma disabled_Link_creates_no_row :
  let first :=
    ConnectLibraryPanelsForDashboard Scenario.off Scenario.c Scenario.dash Scenario.fresh in
  let second :=
    ConnectLibraryPanelsForDashboard Scenario.off Scenario.c Scenario.dash first.1 in
  panels_of (Data Scenario.dash) = [Scenario.entry] ∧
  linked Scenario.entry = true ∧
  byUID Scenario.fresh (uid_of Scenario.entry) = Some Scenario.abc ∧
  first.2 = Returns None ∧ second.2 = Returns None ∧
  link_rows second.1 (ID Scenario.abc) (Id Scenario.dash) = 0%nat.
Proof. vm_compute. repeat split. Qed.

(** C8, amended.  With the feature on and a link table that satisfies
    its unique index, whenever Link succeeds on a dashboard, invoking
    it again on that dashboard succeeds as well and leaves the link
    table as the first call left it: it holds exactly one row for the
    dashboard and each library panel that an entry refers to, never a
    second one. *)
Theorem Link_twice (lps : LibraryPanelService) (c : ReqContext) (dash : Dashboard)
    (db db1 : SQLStore) :
  IsEnabled lps = true →
  unique_index (library_panel_dashboard db) →
  ConnectLibraryPanelsForDashboard lps c dash db = (db1, Returns None) →
  ∃ db2,
    ConnectLibraryPanelsForDashboard lps c dash db1 = (db2, Returns None) ∧
    library_panel_dashboard db2 = library_panel_dashboard db1 ∧
    ∀ panel, panel ∈ panels_of (Data dash) → linked panel = true →
      ∃ p, byUID db (uid_of panel) = Some p ∧
           link_rows db1 (ID p) (Id dash) = 1%nat ∧
           link_rows db2 (ID p) (Id dash) = 1%nat.
Proof.
  intros Hon Huniq Hfirst.
  assert (Hsaved : Id dash ≠ 0 ∧ Uid dash ≠ "").
  { unfold ConnectLibraryPanelsForDashboard in Hfirst. rewrite Hon in Hfirst.
    simpl in Hfirst.
    destruct (decide (Id dash = 0)) as [Hid|Hid].
    { by rewrite (bool_decide_eq_true_2 _ Hid) in Hfirst. }
    destruct (decide (Uid dash = "")) as [Huid|Huid]; [|done].
    rewrite (bool_decide_eq_true_2 _ Huid), orb_true_r in Hfirst. done. }
  destruct Hsaved as [Hid Huid].
  rewrite Connect_visit in Hfirst by done.
  apply visit_connect_ok in Hfirst as (Hlp & Hout & Hmono & Huniq1 & Hall).
  destruct (visit_connect_again c dash (panels_of (Data dash)) 0 db1 Hall)
    as (db2 & Hsecond & Hlp2 & Hrows2 & Hout2).
  exists db2. rewrite Connect_visit by done. split; [done|]. split; [done|].
  intros panel Hin Hl. destruct (Hall panel Hin Hl) as (_ & _ & p & Hp & Hex).
  exists p. split; [by rewrite <- Hp; symmetry; apply byUID_tables|].
  unfold link_rows. rewrite Hrows2.
  split; apply one_link_row; try done; by apply Huniq1.
Qed.

Lemma Link_twice_witness :
  let first :=
    ConnectLibraryPanelsForDashboard Scenario.on Scenario.c Scenario.dash Scenario.fresh in
  ∃ db2,
    ConnectLibraryPanelsForDashboard Scenario.on Scenario.c Scenario.dash first.1 =
      (db2, Returns None) ∧
    library_panel_dashboard db2 = library_panel_dashboard first.1 ∧
    ∀ panel, panel ∈ panels_of (Data Scenario.dash) → linked panel = true →
      ∃ p, byUID Scenario.fresh (uid_of panel) = Some p ∧
           link_rows first.1 (ID p) (Id Scenario.dash) = 1%nat ∧
           link_rows db2 (ID p) (Id Scenario.dash) = 1%nat.
Proof.
  intros first.
  apply (Link_twice Scenario.on Scenario.c Scenario.dash Scenario.fresh first.1).
  - reflexivity.
  - apply NoDup_nil_2.
  - vm_compute. reflexivity.
Defined.

(** ** The feature flag *)

(** C9.  When the feature flag is off, Expand, Collapse and Link each
    return at once with a nil error, whatever the dashboard: the
    dashboard after the call is the dashboard before it, and the
    database after the call is the database before it, for every
    implementation of the two database calls, so that neither has been
    made. *)
Theorem disabled_is_noop (DB : Type) (RS : ReferenceStore DB)
    (lps : LibraryPanelService) (c : ReqContext) (dash : Dashboard) (db : DB) :
  IsEnabled lps = false →
  LoadLibraryPanelsForDashboard lps dash db = (dash, db, Returns None) ∧
  CleanLibraryPanelsForDashboard lps dash = (dash, Returns None) ∧
  ConnectLibraryPanelsForDashboard lps c dash db = (db, Returns None).
Proof. apply gate_closed. Qed.

Lemma disabled_is_noop_witness :
  IsEnabled Scenario.off = false ∧
  LoadLibraryPanelsForDashboard Scenario.off Scenario.dash Scenario.db =
    (Scenario.dash, Scenario.db, Returns None) ∧
  CleanLibraryPanelsForDashboard Scenario.off Scenario.dash =
    (Scenario.dash, Returns None) ∧
  ConnectLibraryPanelsForDashboard Scenario.off Scenario.c Scenario.dash Scenario.db =
    (Scenario.db, Returns None) ∧
  received Scenario.db = [].
Proof.
  split; [reflexivity|].
  destruct (disabled_is_noop SQLStore _ Scenario.off Scenario.c Scenario.dash Scenario.db
              eq_refl) as (Hload & Hclean & Hconnect).
  repeat split; assumption.
Defined.

(** ** A service without configuration *)

(** C10.  A service whose configuration is nil is not enabled:
    [IsEnabled] answers false instead of failing, and Expand, Collapse
    and Link are then calls that return a nil error and leave the
    dashboard and the database as they were. *)
Theorem unconfigured_is_noop (DB : Type) (RS : ReferenceStore DB)
    (c : ReqContext) (dash : Dashboard) (db : DB) :
  let lps := {| Cfg := None |} in
  IsEnabled lps = false ∧
  LoadLibraryPanelsForDashboard lps dash db = (dash, db, Returns None) ∧
  CleanLibraryPanelsForDashboard lps dash = (dash, Returns None) ∧
  ConnectLibraryPanelsForDashboard lps c dash db = (db, Returns None).
Proof. intros lps. split; [done|]. by apply gate_closed. Qed.

(** * Further properties of the three calls *)

(** ** More on loops and documents *)

Lemma with_panels_same data : with_panels data (panels_of data) = data.
Proof.
  destruct (document_cases data) as [(m & a0 & -> & Ha & Hw)|[Hnil Hw]].
  - by rewrite Hw, Ha.
  - by rewrite Hw.
Qed.

Lemma with_data_same dash : with_data dash (Data dash) = dash.
Proof. by destruct dash. Qed.


Lemma swept_same f i l :
  (∀ j q, l !! j = Some q → (f (i + j)%nat q).1 = None) → swept f i l = l.
Proof.
  intros H. apply list_eq. intros j. unfold swept. rewrite list_lookup_imap.
  destruct (l !! j) as [q|] eqn:Hj; simpl; [|done]. by rewrite (H j q Hj).
Qed.

(** Two loops whose rounds agree on the entries they meet. *)
Lemma sweep_ext f g i l :
  (∀ j q, l !! j = Some q → f (i + j)%nat q = g (i + j)%nat q) →
  sweep f i l = sweep g i l.
Proof.
  revert i. induction l as [|p l IH]; intros i H; [done|]. simpl.
  pose proof (H 0%nat p eq_refl) as Hp. rewrite Nat.add_0_r in Hp. rewrite Hp.
  rewrite (IH (S i)); [done|].
  intros j q Hj. replace (S i + j)%nat with (i + S j)%nat by lia. by apply (H (S j)).
Qed.

(** A loop run again over what it left: when a round leaves its entry
    in a state that the same round passes or leaves in the same way
    and does not change any more, the second run changes nothing and
    ends as the first. *)
Lemma sweep_again f i l :
  (∀ j q, l !! j = Some q →
     (f (i + j)%nat (default q (f (i + j)%nat q).1)).2 = (f (i + j)%nat q).2 ∧
     default (default q (f (i + j)%nat q).1)
             (f (i + j)%nat (default q (f (i + j)%nat q).1)).1 =
       default q (f (i + j)%nat q).1) →
  sweep f i (sweep f i l).1 = sweep f i l.
Proof.
  revert i. induction l as [|p l IH]; intros i H; [done|].
  destruct (H 0%nat p eq_refl) as [Hflow Hentry]. rewrite Nat.add_0_r in Hflow, Hentry.
  assert (Hrest : sweep f (S i) (sweep f (S i) l).1 = sweep f (S i) l).
  { apply IH. intros j q Hj. specialize (H (S j) q Hj).
    by replace (i + S j)%nat with (S i + j)%nat in H by lia. }
  simpl. destruct (f i p).2 as [|o] eqn:Hp; simpl; rewrite Hflow, Hentry.
  - by rewrite Hrest.
  - done.
Qed.

Lemma visit_ext {St : Type} (body body' : nat → any → St → St * flow) i l l' s :
  length l' = length l →
  (∀ j q q' s, l !! j = Some q → l' !! j = Some q' →
     body' (i + j)%nat q' s = body (i + j)%nat q s) →
  visit body' i l' s = visit body i l s.
Proof.
  revert i l' s. induction l as [|p l IH]; intros i [|p' l'] s Hlen H;
    try done. simpl.
  pose proof (H 0%nat p p' s eq_refl eq_refl) as Hp. rewrite Nat.add_0_r in Hp.
  rewrite Hp. destruct (body i p s) as [s' [|o]]; [|done].
  apply IH; [by injection Hlen|].
  intros j q q' s'' Hj Hj'. replace (S i + j)%nat with (i + S j)%nat by lia.
  by apply (H (S j)).
Qed.

(** ** The dashboard after a call, whatever the call returns *)

(** The dashboard after Collapse is the dashboard with a panel array
    of the same length in which every entry is as it was or as its
    round left it. *)
Lemma Clean_result lps dash :
  ∃ l', (CleanLibraryPanelsForDashboard lps dash).1 =
          with_data dash (with_panels (Data dash) l') ∧
        length l' = length (panels_of (Data dash)) ∧
        ∀ j q, panels_of (Data dash) !! j = Some q →
          l' !! j = Some q ∨ l' !! j = Some (default q (collapse j q).1).
Proof.
  destruct (IsEnabled lps) eqn:Hon.
  - exists (sweep collapse 0 (panels_of (Data dash))).1.
    rewrite Clean_sweep by done. split; [done|]. split; [apply sweep_length|].
    intros j q Hj. apply (sweep_lookup collapse 0 _ j q Hj).
  - exists (panels_of (Data dash)). unfold CleanLibraryPanelsForDashboard.
    rewrite Hon. simpl. rewrite with_panels_same, with_data_same.
    split; [done|]. split; [done|]. intros j q Hj. by left.
Qed.

Section Result.
Context {DB : Type} `{!ReferenceStore DB}.


End Result.

(** ** An entry that Collapse has reduced *)

Lemma Get_map_literal3 id g r :
  let entry := map_literal [("id", id); ("gridPos", g); ("libraryPanel", r)] in
  Get entry "id" = id ∧ Get entry "gridPos" = g ∧ Get entry "libraryPanel" = r.
Proof.
  unfold map_literal. simpl. split; [|split].
  - apply Get_insert_eq.
  - rewrite Get_insert_ne by done. apply Get_insert_eq.
  - rewrite !Get_insert_ne by done. apply Get_insert_eq.
Qed.

(** What Collapse puts in place of an entry refers to the same library
    panel under the same name. *)
Lemma collapse_keeps_reference i q :
  linked (default q (collapse i q).1) = linked q ∧
  uid_of (default q (collapse i q).1) = uid_of q ∧
  name_of (default q (collapse i q).1) = name_of q.
Proof.
  destruct (collapse_cases q) as [H|[[H Hbad]|(H & Hu & Hn)]].
  - by rewrite collapse_plain.
  - destruct (collapse_malformed i q H Hbad) as (err & He & _). by rewrite He.
  - rewrite collapse_linked by done.
    destruct (Get_map_literal3
                (JInt64 (MustInt64 (Get q "id") (Z.of_nat i)))
                (box (MustMap (Get q "gridPos")))
                (reference (uid_of q) (name_of q))) as (_ & _ & Hlib).
    set (q' := map_literal _) in *.
    change (default q (Some q', Continue).1) with q'.
    unfold linked, uid_of, name_of. rewrite Hlib.
    fold (uid_of q) (name_of q) (linked q).
    by rewrite reference_uid, reference_name, H.
Qed.

(** Collapse leaves what it has put in place as it is. *)
Lemma collapse_again i q :
  (collapse i (default q (collapse i q).1)).2 = (collapse i q).2 ∧
  default (default q (collapse i q).1) (collapse i (default q (collapse i q).1)).1 =
    default q (collapse i q).1.
Proof.
  destruct (collapse_cases q) as [H|[[H Hbad]|(H & Hu & Hn)]].
  - rewrite (collapse_plain i q) by done. simpl. by rewrite collapse_plain.
  - destruct (collapse_malformed i q H Hbad) as (err & He & _).
    rewrite He. simpl. by rewrite He.
  - destruct (collapse_keeps_reference i q) as (Hl' & Hu' & Hn').
    rewrite (collapse_linked i q) in Hl', Hu', Hn' |- * by done.
    destruct (Get_map_literal3
                (JInt64 (MustInt64 (Get q "id") (Z.of_nat i)))
                (box (MustMap (Get q "gridPos")))
                (reference (uid_of q) (name_of q))) as (Hid & Hgrid & _).
    set (q' := map_literal _) in *.
    change (default q (Some q', Continue).1) with q' in *.
    rewrite (collapse_linked i q') by congruence.
    split; [done|]. rewrite Hid, Hgrid, Hu', Hn'. done.
Qed.

(** ** Link, for every store *)

Section Link.
Context {DB : Type} `{!ReferenceStore DB}.

Lemma Connect_loop lps c dash (db : DB) :
  ConnectLibraryPanelsForDashboard lps c dash db =
    if negb (IsEnabled lps) then (db, Returns None) else
    if bool_decide (Id dash = 0) || bool_decide (Uid dash = "") then
      (db, Returns (Some (errors_New "dashboard is missing an ID or uid"))) else
    visit (connectPanel c dash) 0 (panels_of (Data dash)) db.
Proof.
  unfold ConnectLibraryPanelsForDashboard.
  destruct (negb (IsEnabled lps)); [done|].
  destruct (bool_decide (Id dash = 0) || bool_decide (Uid dash = "")); [done|].
  apply (range_visit (connectPanel c dash) []).
Qed.

(** A round of Link reads of its entry whether it is library-linked
    and its uid, and of the dashboard its id. *)
Lemma connectPanel_reads c dash dash' i j q q' (db : DB) :
  Id dash' = Id dash → linked q' = linked q → uid_of q' = uid_of q →
  connectPanel c dash' i q' db = connectPanel c dash j q db.
Proof.
  unfold connectPanel, linked, uid_of, NewFromAny, Interface. intros -> Hl ->.
  by destruct (is_nil (Get q' "libraryPanel")), (is_nil (Get q "libraryPanel")).
Qed.

Lemma connectPanel_skips c dash i q (db : DB) :
  linked q = false → connectPanel c dash i q db = (db, Continue).
Proof.
  unfold linked, connectPanel, NewFromAny, Interface.
  by destruct (is_nil (Get q "libraryPanel")).
Qed.

Lemma visit_skips c dash i l (db : DB) :
  Forall (λ q, linked q = false) l →
  visit (connectPanel c dash) i l db = (db, Returns None).
Proof.
  revert i. induction l as [|q l IH]; intros i Hall; [done|].
  apply Forall_cons in Hall as [Hq Hall]. simpl.
  rewrite connectPanel_skips by done. by apply IH.
Qed.

End Link.

(** ** Dashboards without library panels *)

(** X1.  With the feature on, a dashboard none of whose panel entries
    is library-linked (in particular one whose document has no panel
    array) goes through the three calls untouched: Expand returns a
    nil error once its lookup has succeeded, Collapse returns a nil
    error, and both leave the dashboard as it was; Link on a saved
    dashboard returns a nil error and leaves the database as it was,
    for every implementation of the database calls. *)
Theorem plain_dashboard_untouched (DB : Type) (RS : ReferenceStore DB)
    (lps : LibraryPanelService) (c : ReqContext) (dash : Dashboard) (db : DB) :
  IsEnabled lps = true →
  Forall (λ panel, linked panel = false) (panels_of (Data dash)) →
  (∀ db' libraryPanels,
     getLibraryPanelsForDashboardID (Id dash) db = (db', inl libraryPanels) →
     LoadLibraryPanelsForDashboard lps dash db = (dash, db', Returns None)) ∧
  CleanLibraryPanelsForDashboard lps dash = (dash, Returns None) ∧
  (Id dash ≠ 0 → Uid dash ≠ "" →
   ConnectLibraryPanelsForDashboard lps c dash db = (db, Returns None)).
Proof.
  intros Hon Hplain. rewrite Forall_lookup in Hplain. split; [|split].
  - intros db' lp Hget. rewrite (Load_sweep _ _ _ _ _ Hon Hget).
    rewrite sweep_passes.
    + simpl. rewrite swept_same.
      * by rewrite with_panels_same, with_data_same.
      * intros j q Hj. simpl. by rewrite expand_plain by (by apply (Hplain j)).
    + intros j q Hj. simpl. by rewrite expand_plain by (by apply (Hplain j)).
  - rewrite Clean_sweep by done. rewrite sweep_passes.
    + simpl. rewrite swept_same.
      * by rewrite with_panels_same, with_data_same.
      * intros j q Hj. by rewrite collapse_plain by (by apply (Hplain j)).
    + intros j q Hj. by rewrite collapse_plain by (by apply (Hplain j)).
  - intros Hid Huid. rewrite Connect_loop, Hon. simpl.
    rewrite !bool_decide_eq_false_2 by done. simpl.
    apply visit_skips. by apply Forall_lookup.
Qed.

Lemma plain_dashboard_untouched_witness :
  let dash := Scenario.on_dash [Scenario.plain] in
  LoadLibraryPanelsForDashboard Scenario.on dash Scenario.db =
    (dash, receive (FetchLinkedPanels 1) Scenario.db, Returns None) ∧
  CleanLibraryPanelsForDashboard Scenario.on dash = (dash, Returns None) ∧
  ConnectLibraryPanelsForDashboard Scenario.on Scenario.c dash Scenario.db =
    (Scenario.db, Returns None).
Proof.
  intros dash.
  destruct (plain_dashboard_untouched SQLStore _ Scenario.on Scenario.c dash Scenario.db)
    as (Hexpand & Hcollapse & Hlink).
  - reflexivity.
  - apply Forall_cons_2; [reflexivity|apply Forall_nil_2].
  - split; [|split].
    + apply (Hexpand _ {[ "abc" := Scenario.abc ]}). vm_compute. reflexivity.
    + exact Hcollapse.
    + apply Hlink; intros H; vm_compute in H; discriminate H.
Defined.

(** ** Collapse, twice *)

(** X2.  Collapse is idempotent: on the dashboard that a call of
    Collapse leaves, a second call changes nothing and returns what
    the first returned (a nil error, or the same error at the same
    entry). *)
Theorem Collapse_idempotent (lps : LibraryPanelService) (dash : Dashboard) :
  CleanLibraryPanelsForDashboard lps (CleanLibraryPanelsForDashboard lps dash).1 =
    CleanLibraryPanelsForDashboard lps dash.
Proof.
  destruct (IsEnabled lps) eqn:Hon.
  2:{ unfold CleanLibraryPanelsForDashboard. by rewrite Hon. }
  rewrite !Clean_sweep by done. simpl.
  rewrite panels_of_with_panels by apply sweep_length.
  rewrite sweep_again by (intros j q _; apply collapse_again).
  by rewrite with_panels_twice.
Qed.

(** ** What the calls leave alone *)


(** ** Link after Collapse *)

(** X4.  Linking the dashboard that Collapse leaves is linking the
    dashboard itself: for every implementation of the database calls,
    Link makes the same calls, ends with the same database and returns
    the same error on both, whether Collapse succeeded or not. *)
Theorem Link_after_Collapse (DB : Type) (RS : ReferenceStore DB)
    (lps lps' : LibraryPanelService) (c : ReqContext) (dash : Dashboard) (db : DB) :
  ConnectLibraryPanelsForDashboard lps c (CleanLibraryPanelsForDashboard lps' dash).1 db =
    ConnectLibraryPanelsForDashboard lps c dash db.
Proof.
  destruct (Clean_result lps' dash) as (l' & -> & Hlen & Hl').
  rewrite !Connect_loop. simpl.
  destruct (negb (IsEnabled lps)); [done|].
  destruct (bool_decide (Id dash = 0) || bool_decide (Uid dash = "")); [done|].
  rewrite panels_of_with_panels by done.
  apply visit_ext; [done|]. intros j q q' s Hj Hj'. simpl.
  apply connectPanel_reads; [done|..];
    destruct (Hl' j q Hj) as [H|H]; rewrite H in Hj'; simplify_eq; try done;
    apply collapse_keeps_reference.
Qed.

(** ** An entry that Expand has overlaid *)

Lemma Get_overlay content r id g :
  let entry :=
    JMap (Some (<["libraryPanel" := r]> (<["id" := id]> (<["gridPos" := g]> content)))) in
  Get entry "libraryPanel" = r ∧ Get entry "id" = id ∧ Get entry "gridPos" = g.
Proof.
  simpl. split; [|split].
  - apply Get_insert_eq.
  - rewrite Get_insert_ne by done. apply Get_insert_eq.
  - rewrite !Get_insert_ne by done. apply Get_insert_eq.
Qed.

(** Something that is not an object is not library-linked. *)
Lemma not_object_plain document :
  Map document = None → linked document = false.
Proof. unfold linked, Get. by intros ->. Qed.

(** The rounds of Expand over an entry [q] that is library-linked to
    the library panel [p], whose content is the object [content]. *)
Lemma expand_overlay_again libraryPanels q p content :
  keyed libraryPanels →
  linked q = true → uid_of q ≠ "" → libraryPanels !! uid_of q = Some p →
  Model p = Raw (JMap (Some content)) →
  let q1 := JMap (Some
    (<["libraryPanel" := reference (UID p) (Name p)]>
       (<["id" := JInt64 (MustInt64 (Get q "id") 0)]>
          (<["gridPos" := box (MustMap (Get q "gridPos"))]> content)))) in
  expand libraryPanels q = (Some q1, Continue) ∧
  linked q1 = true ∧ uid_of q1 = uid_of q ∧ name_of q1 = Name p ∧
  expand libraryPanels q1 = (Some q1, Continue).
Proof.
  intros Hkeyed Hl Hu Hp Hm q1.
  destruct (Get_overlay content (reference (UID p) (Name p))
              (JInt64 (MustInt64 (Get q "id") 0))
              (box (MustMap (Get q "gridPos")))) as (Hlib & Hid & Hgrid).
  change (Get q1 "libraryPanel" = reference (UID p) (Name p)) in Hlib.
  change (Get q1 "id" = JInt64 (MustInt64 (Get q "id") 0)) in Hid.
  change (Get q1 "gridPos" = box (MustMap (Get q "gridPos"))) in Hgrid.
  assert (Huid : UID p = uid_of q) by (by apply Hkeyed).
  assert (Hl1 : linked q1 = true) by (unfold linked; by rewrite Hlib).
  assert (Hu1 : uid_of q1 = uid_of q)
    by (unfold uid_of at 1; by rewrite Hlib, reference_uid).
  assert (Hn1 : name_of q1 = Name p)
    by (unfold name_of; by rewrite Hlib, reference_name).
  split; [by rewrite (expand_found _ _ p), Hm|].
  split; [done|]. split; [done|]. split; [done|].
  rewrite (expand_found _ q1 p), Hm by (by rewrite ?Hu1).
  by rewrite Hid, Hgrid.
Qed.

(** Expand leaves what it has put in place as it is, when the lookup
    result is keyed by uid and holds no nil map as content (decoding
    yields none). *)
Lemma expand_again libraryPanels q :
  keyed libraryPanels →
  (∀ uid p, libraryPanels !! uid = Some p → Model p ≠ Raw (JMap None)) →
  (expand libraryPanels (default q (expand libraryPanels q).1)).2 =
    (expand libraryPanels q).2 ∧
  default (default q (expand libraryPanels q).1)
          (expand libraryPanels (default q (expand libraryPanels q).1)).1 =
    default q (expand libraryPanels q).1.
Proof.
  intros Hkeyed Hdecoded.
  destruct (expand_cases libraryPanels q)
    as [H|[[H Hu]|[(H & Hu & Hl)|(p & H & Hu & Hl)]]].
  - rewrite (expand_plain _ q) by done. simpl. by rewrite expand_plain.
  - rewrite (expand_no_uid _ q) by done. simpl. by rewrite expand_no_uid.
  - rewrite (expand_dangling _ q) by done. simpl. by rewrite expand_dangling.
  - destruct (Model p) as [document|err] eqn:Hm.
    2:{ assert (He : expand libraryPanels q =
                       (None, Stop (Returns (Some
                          (fmt_Errorf "could not convert library panel to JSON: %w" err)))))
          by (by rewrite (expand_found _ _ p), Hm).
        rewrite He. simpl. by rewrite He. }
    destruct (Map document) as [[content|]|] eqn:Hdoc.
    + destruct document; simplify_eq/=.
      destruct (expand_overlay_again libraryPanels q p content)
        as (He & _ & _ & _ & He1); try done.
      rewrite He. simpl. by rewrite He1.
    + destruct document; simplify_eq/=. by destruct (Hdecoded _ _ Hl).
    + assert (He : expand libraryPanels q = (Some document, Continue)).
      { rewrite (expand_found _ _ p), Hm by done. by destruct document. }
      rewrite He. simpl. by rewrite expand_plain by (by apply not_object_plain).
Qed.

(** Collapse of what Expand has put in place, and Expand of that. *)
Lemma expand_collapse_expand libraryPanels i q :
  keyed libraryPanels →
  (∀ uid p, libraryPanels !! uid = Some p → Name p ≠ "") →
  (expand libraryPanels q).2 = Continue →
  let q1 := default q (expand libraryPanels q).1 in
  let q2 := default q1 (collapse i q1).1 in
  (collapse i q1).2 = Continue ∧
  (expand libraryPanels q2).2 = Continue ∧
  default q2 (expand libraryPanels q2).1 = q1.
Proof.
  intros Hkeyed Hnamed Hc q1 q2. subst q1 q2.
  destruct (expand_cases libraryPanels q)
    as [H|[[H Hu]|[(H & Hu & Hl)|(p & H & Hu & Hl)]]].
  - rewrite (expand_plain _ q) by done. simpl.
    rewrite (collapse_plain i q) by done. simpl. by rewrite expand_plain.
  - by rewrite expand_no_uid in Hc.
  - by rewrite expand_dangling in Hc.
  - destruct (Model p) as [document|err] eqn:Hm.
    2:{ by rewrite (expand_found _ _ p), Hm in Hc. }
    destruct (Map document) as [[content|]|] eqn:Hdoc.
    + destruct document; simplify_eq/=.
      destruct (expand_overlay_again libraryPanels q p content)
        as (He & Hl1 & Hu1 & Hn1 & He1); try done.
      set (q1 := JMap (Some (<["libraryPanel" := reference (UID p) (Name p)]> _))) in *.
      rewrite He.
      change (default q (Some q1, Continue).1) with q1.
      assert (Hname : name_of q1 ≠ "") by (rewrite Hn1; by apply (Hnamed _ _ Hl)).
      destruct (collapse_keeps_reference i q1) as (Hl2 & Hu2 & Hn2).
      destruct (Get_overlay content (reference (UID p) (Name p))
                  (JInt64 (MustInt64 (Get q "id") 0))
                  (box (MustMap (Get q "gridPos")))) as (_ & Hid & Hgrid).
      change (Get q1 "id" = JInt64 (MustInt64 (Get q "id") 0)) in Hid.
      change (Get q1 "gridPos" = box (MustMap (Get q "gridPos"))) in Hgrid.
      rewrite (collapse_linked i q1) in Hl2, Hu2, Hn2 |- * by (by rewrite ?Hu1).
      destruct (Get_map_literal3
                  (JInt64 (MustInt64 (Get q1 "id") (Z.of_nat i)))
                  (box (MustMap (Get q1 "gridPos")))
                  (reference (uid_of q1) (name_of q1))) as (Hid2 & Hgrid2 & _).
      set (q2 := map_literal _) in *.
      change (default q1 (Some q2, Continue).1) with q2 in *.
      split; [done|].
      rewrite (expand_found _ q2 p), Hm by (rewrite ?Hu2, ?Hu1; congruence).
      rewrite Hid2, Hgrid2, Hid, Hgrid. done.
    + destruct document; simplify_eq/=.
      by rewrite (expand_found _ _ p), Hm in Hc.
    + assert (He : expand libraryPanels q = (Some document, Continue)).
      { rewrite (expand_found _ _ p), Hm by done. by destruct document. }
      rewrite He.
      change (default q (Some document, Continue).1) with document.
      rewrite (collapse_plain i document) by (by apply not_object_plain).
      simpl. by rewrite expand_plain by (by apply not_object_plain).
Qed.

Lemma swept_restores f g i l :
  (∀ j q, l !! j = Some q →
     default (default q (g (i + j)%nat q).1)
             (f (i + j)%nat (default q (g (i + j)%nat q).1)).1 = q) →
  swept f i (swept g i l) = l.
Proof.
  intros H. apply list_eq. intros j. unfold swept. rewrite !list_lookup_imap.
  destruct (l !! j) as [q|] eqn:Hj; simpl; [|done]. f_equal. by apply H.
Qed.

Lemma swept_lookup_Some f i l j q' :
  swept f i l !! j = Some q' →
  ∃ q, l !! j = Some q ∧ q' = default q (f (i + j)%nat q).1.
Proof.
  unfold swept. rewrite list_lookup_imap.
  destruct (l !! j) as [q|]; intros Hq; simplify_eq/=. by exists q.
Qed.

(** ** Expand, twice *)

(** X5.  Expand is idempotent under an unchanged lookup: when the
    Panel Lookup gives the same result for both calls, keyed by the
    uid of the library panels it holds, a second Expand on the
    dashboard that the first one left changes nothing and returns what
    the first returned (a nil error, or the same error at the same
    entry).  The content of a library panel may be any decoded
    document or fail to decode; decoding never yields a nil map. *)
Theorem Expand_idempotent (DB : Type) (RS : ReferenceStore DB)
    (lps : LibraryPanelService) (dash : Dashboard) (db db' db'' : DB)
    (libraryPanels : gmap string LibraryPanel) :
  getLibraryPanelsForDashboardID (Id dash) db = (db', inl libraryPanels) →
  getLibraryPanelsForDashboardID (Id dash) db' = (db'', inl libraryPanels) →
  keyed libraryPanels →
  (∀ uid p, libraryPanels !! uid = Some p → Model p ≠ Raw (JMap None)) →
  let first := LoadLibraryPanelsForDashboard lps dash db in
  let second := LoadLibraryPanelsForDashboard lps first.1.1 first.1.2 in
  second.1.1 = first.1.1 ∧ second.2 = first.2.
Proof.
  intros Hget Hget' Hkeyed Hdecoded first second. subst first second.
  destruct (IsEnabled lps) eqn:Hon.
  2:{ unfold LoadLibraryPanelsForDashboard. by rewrite Hon. }
  rewrite (Load_sweep _ _ _ _ _ Hon Hget). simpl.
  set (l := panels_of (Data dash)).
  set (f := λ _ : nat, expand libraryPanels).
  rewrite (Load_sweep lps _ db' db'' libraryPanels Hon) by done. simpl. fold f.
  rewrite panels_of_with_panels by apply sweep_length.
  rewrite sweep_again by (intros j q _; by apply expand_again).
  by rewrite with_panels_twice.
Qed.

Lemma Expand_idempotent_witness :
  let dash := Scenario.on_dash [Scenario.entry; Scenario.plain; Scenario.dangling] in
  let first := LoadLibraryPanelsForDashboard Scenario.on dash Scenario.db in
  let second := LoadLibraryPanelsForDashboard Scenario.on first.1.1 first.1.2 in
  panels_of (Data first.1.1) !! 0%nat = Some Scenario.expanded ∧
  second.1.1 = first.1.1 ∧ second.2 = first.2.
Proof.
  intros dash first second. split; [vm_compute; reflexivity|].
  apply (Expand_idempotent SQLStore _ Scenario.on dash Scenario.db
           (receive (FetchLinkedPanels 1) Scenario.db)
           (receive (FetchLinkedPanels 1) (receive (FetchLinkedPanels 1) Scenario.db))
           {[ "abc" := Scenario.abc ]}).
  - vm_compute. reflexivity.
  - vm_compute. reflexivity.
  - intros uid p Hp. apply lookup_singleton_Some in Hp as [<- <-]. reflexivity.
  - intros uid p Hp. apply lookup_singleton_Some in Hp as [<- <-].
    intros H. discriminate H.
Defined.

(** ** Expand, Collapse, Expand *)

(** X6.  Saving and reloading a loaded dashboard gives the loaded
    dashboard back.  When Expand has returned a nil error and the
    lookup result is keyed by uid and holds no library panel with an
    empty name, Collapse on the expanded dashboard returns a nil error,
    and Expand on the collapsed dashboard, from any database for which
    the Panel Lookup gives the same result, returns a nil error and
    the expanded dashboard again. *)
Theorem Expand_Collapse_Expand (DB : Type) (RS : ReferenceStore DB)
    (lps : LibraryPanelService) (dash : Dashboard) (db db' later later' : DB)
    (libraryPanels : gmap string LibraryPanel) :
  getLibraryPanelsForDashboardID (Id dash) db = (db', inl libraryPanels) →
  getLibraryPanelsForDashboardID (Id dash) later = (later', inl libraryPanels) →
  keyed libraryPanels →
  (∀ uid p, libraryPanels !! uid = Some p → Name p ≠ "") →
  (LoadLibraryPanelsForDashboard lps dash db).2 = Returns None →
  let loaded := (LoadLibraryPanelsForDashboard lps dash db).1.1 in
  let saved := CleanLibraryPanelsForDashboard lps loaded in
  saved.2 = Returns None ∧
  (LoadLibraryPanelsForDashboard lps saved.1 later).1.1 = loaded ∧
  (LoadLibraryPanelsForDashboard lps saved.1 later).2 = Returns None.
Proof.
  intros Hget Hlater Hkeyed Hnamed Hret loaded saved. subst loaded saved.
  destruct (IsEnabled lps) eqn:Hon.
  2:{ unfold LoadLibraryPanelsForDashboard, CleanLibraryPanelsForDashboard.
      by rewrite Hon. }
  rewrite (Load_sweep _ _ _ _ _ Hon Hget) in Hret |- *. simpl in *.
  set (l := panels_of (Data dash)) in *.
  set (f := λ _ : nat, expand libraryPanels) in *.
  assert (Hpass : passes f 0 l).
  { destruct (sweep_outcome f l) as [[H _]|(i & q & o & _ & _ & Hq & Hs)]; [done|].
    rewrite Hs in Hret. simpl in Hret. subst o.
    by apply expand_error_keeps in Hq as (_ & _ & [? ?]). }
  rewrite (sweep_passes f) by done. simpl.
  assert (Hentry : ∀ j q1, swept f 0 l !! j = Some q1 →
            (collapse j q1).2 = Continue ∧
            (expand libraryPanels (default q1 (collapse j q1).1)).2 = Continue ∧
            default (default q1 (collapse j q1).1)
                    (expand libraryPanels (default q1 (collapse j q1).1)).1 = q1).
  { intros j q1 Hq1. apply swept_lookup_Some in Hq1 as (q & Hq & ->).
    apply (expand_collapse_expand libraryPanels j q); try done. by apply (Hpass j q). }
  rewrite Clean_sweep by done. simpl.
  rewrite panels_of_with_panels by (by rewrite swept_length).
  rewrite (sweep_passes collapse) by (intros j q1 Hq1; by apply Hentry).
  simpl. split; [done|].
  rewrite (Load_sweep lps _ later later' libraryPanels Hon) by done. simpl. fold f.
  rewrite with_panels_twice.
  rewrite panels_of_with_panels by (by rewrite !swept_length).
  rewrite (sweep_passes f).
  - simpl. rewrite with_panels_twice. split; [|done]. f_equal. f_equal.
    apply swept_restores. intros j q1 Hq1. by apply Hentry.
  - apply passes_swept. intros j q1 Hq1. by apply Hentry.
Qed.

Lemma Expand_Collapse_Expand_witness :
  let dash := Scenario.on_dash [Scenario.entry; Scenario.plain] in
  let loaded := (LoadLibraryPanelsForDashboard Scenario.on dash Scenario.db).1.1 in
  let saved := CleanLibraryPanelsForDashboard Scenario.on loaded in
  panels_of (Data loaded) !! 0%nat = Some Scenario.expanded ∧
  panels_of (Data saved.1) !! 0%nat = Some Scenario.collapsed ∧
  saved.2 = Returns None ∧
  (LoadLibraryPanelsForDashboard Scenario.on saved.1 Scenario.db).1.1 = loaded ∧
  (LoadLibraryPanelsForDashboard Scenario.on saved.1 Scenario.db).2 = Returns None.
Proof.
  intros dash loaded saved.
  split; [vm_compute; reflexivity|]. split; [vm_compute; reflexivity|].
  apply (Expand_Collapse_Expand SQLStore _ Scenario.on dash Scenario.db
           (receive (FetchLinkedPanels 1) Scenario.db) Scenario.db
           (receive (FetchLinkedPanels 1) Scenario.db) {[ "abc" := Scenario.abc ]}).
  - vm_compute. reflexivity.
  - vm_compute. reflexivity.
  - intros uid p Hp. apply lookup_singleton_Some in Hp as [<- <-]. reflexivity.
  - intros uid p Hp. apply lookup_singleton_Some in Hp as [<- <-].
    intros H. discriminate H.
  - vm_compute. reflexivity.
Defined.

(** ** Expand after Collapse *)

(** X7.  What Collapse has accepted, Expand never rejects as
    malformed: on a dashboard that Collapse has left with a nil error,
    Expand, once its lookup has succeeded, returns a nil error, the
    dangling-reference error or the error of a content that does not
    decode, and never the error of a missing uid. *)
Theorem collapsed_is_well_formed (DB : Type) (RS : ReferenceStore DB)
    (lps : LibraryPanelService) (dash dash' : Dashboard) (db db' : DB)
    (libraryPanels : gmap string LibraryPanel) (err : error) :
  CleanLibraryPanelsForDashboard lps dash = (dash', Returns None) →
  getLibraryPanelsForDashboardID (Id dash') db = (db', inl libraryPanels) →
  (LoadLibraryPanelsForDashboard lps dash' db).2 = Returns (Some err) →
  (DanglingReference err ∨
   ∃ cause, err = fmt_Errorf "could not convert library panel to JSON: %w" cause) ∧
  ¬ MalformedReference err.
Proof.
  intros Hclean Hget Hload.
  destruct (IsEnabled lps) eqn:Hon.
  2:{ unfold LoadLibraryPanelsForDashboard in Hload. rewrite Hon in Hload.
      discriminate Hload. }
  rewrite (Clean_sweep _ _ Hon) in Hclean. injection Hclean as Hdash Hret.
  set (l := panels_of (Data dash)) in *.
  assert (Hpass : passes collapse 0 l).
  { destruct (sweep_outcome collapse l) as [[H _]|(i & q & o & _ & _ & Hq & Hs)]; [done|].
    rewrite Hs in Hret. simpl in Hret. subst o.
    by apply collapse_stop_inv in Hq as (_ & _ & e & ? & _). }
  assert (Hpanels : panels_of (Data dash') = swept collapse 0 l).
  { rewrite <- Hdash. simpl. rewrite (sweep_passes collapse) by done. simpl.
    apply panels_of_with_panels. by rewrite swept_length. }
  destruct (Load_outcome lps dash' db db' libraryPanels Hon Hget)
    as [[_ Hnil]|(i & p & o & Hi & _ & Hstop & Ho)].
  { rewrite Hnil in Hload. discriminate Hload. }
  rewrite Ho in Hload. subst o. rewrite Hpanels in Hi.
  apply swept_lookup_Some in Hi as (q & Hq & ->).
  destruct (collapse_keeps_reference (0 + i) q) as (Hl & Hu & _).
  assert (Hwf : well_formed q) by (by apply (collapse_passes (0 + i)), (Hpass i q)).
  set (q' := default q (collapse (0 + i) q).1) in *.
  assert (Hcases : DanglingReference err ∨
            ∃ cause, err = fmt_Errorf "could not convert library panel to JSON: %w" cause).
  { destruct (expand_cases libraryPanels q')
      as [H|[[H Hu']|[(H & Hu' & Hnone)|(p & H & Hu' & Hp)]]].
    - by rewrite expand_plain in Hstop.
    - destruct Hwf as [Hplain|[Hne _]]; congruence.
    - rewrite expand_dangling in Hstop by done. left. by simplify_eq/=.
    - rewrite (expand_found _ _ p) in Hstop by done.
      destruct (Model p) as [[| | | | | |[content|]]|cause]; simplify_eq/=.
      right. by exists cause. }
  split; [done|].
  intros [Hm|Hm]; destruct Hcases as [Hd|[cause Hc]]; congruence.
Qed.

Lemma collapsed_is_well_formed_witness :
  let dash := Scenario.on_dash [Scenario.expanded; Scenario.dangling] in
  let dash' := (CleanLibraryPanelsForDashboard Scenario.on dash).1 in
  let err := errors_New "found a library panel that does not exists as a connection" in
  (LoadLibraryPanelsForDashboard Scenario.on dash' Scenario.db).2 = Returns (Some err) ∧
  (DanglingReference err ∨
   ∃ cause, err = fmt_Errorf "could not convert library panel to JSON: %w" cause) ∧
  ¬ MalformedReference err.
Proof.
  intros dash dash' err. split; [vm_compute; reflexivity|].
  apply (collapsed_is_well_formed SQLStore _ Scenario.on dash dash' Scenario.db
           (receive (FetchLinkedPanels 1) Scenario.db) {[ "abc" := Scenario.abc ]}).
  - vm_compute. reflexivity.
  - vm_compute. reflexivity.
  - vm_compute. reflexivity.
Defined.

(** ** What Expand reads of the lookup *)

Lemma expand_reads lp1 lp2 q :
  (linked q = true → lp1 !! uid_of q = lp2 !! uid_of q) →
  expand lp1 q = expand lp2 q.
Proof.
  intros H. unfold expand. destruct (linked q); [|done]. by rewrite H.
Qed.

(** X8.  Expand reads of the lookup result only what it holds under
    the uids of the dashboard's library-linked entries: two lookup
    results that agree on those give the same expanded dashboard and
    the same return, whatever other library panels they hold. *)
Theorem Expand_reads_referenced_only (DB : Type) (RS : ReferenceStore DB)
    (lps : LibraryPanelService) (dash : Dashboard) (db1 db1' db2 db2' : DB)
    (lp1 lp2 : gmap string LibraryPanel) :
  getLibraryPanelsForDashboardID (Id dash) db1 = (db1', inl lp1) →
  getLibraryPanelsForDashboardID (Id dash) db2 = (db2', inl lp2) →
  Forall (λ panel, linked panel = true → lp1 !! uid_of panel = lp2 !! uid_of panel)
    (panels_of (Data dash)) →
  (LoadLibraryPanelsForDashboard lps dash db1).1.1 =
    (LoadLibraryPanelsForDashboard lps dash db2).1.1 ∧
  (LoadLibraryPanelsForDashboard lps dash db1).2 =
    (LoadLibraryPanelsForDashboard lps dash db2).2.
Proof.
  intros Hget1 Hget2 Hagree. destruct (IsEnabled lps) eqn:Hon.
  2:{ unfold LoadLibraryPanelsForDashboard. by rewrite Hon. }
  rewrite (Load_sweep _ _ _ _ _ Hon Hget1), (Load_sweep _ _ _ _ _ Hon Hget2). simpl.
  rewrite (sweep_ext (λ _, expand lp1) (λ _, expand lp2)); [done|].
  intros j q Hj. simpl. apply expand_reads.
  rewrite Forall_lookup in Hagree. by apply (Hagree j).
Qed.

Lemma Expand_reads_referenced_only_witness :
  let dash := Scenario.on_dash [Scenario.entry; Scenario.plain] in
  let crowded :=
    {| library_panel := [Scenario.abc; Scenario.listing];
       library_panel_dashboard :=
         [{| row_id := 1; librarypanel_id := 7; dashboard_id := 1;
             created := 0; created_by := 1 |};
          {| row_id := 2; librarypanel_id := 8; dashboard_id := 1;
             created := 0; created_by := 1 |}];
       clock := 10; outage := None; received := [] |} in
  (LoadLibraryPanelsForDashboard Scenario.on dash Scenario.db).1.1 =
    (LoadLibraryPanelsForDashboard Scenario.on dash crowded).1.1 ∧
  (LoadLibraryPanelsForDashboard Scenario.on dash Scenario.db).2 =
    (LoadLibraryPanelsForDashboard Scenario.on dash crowded).2.
Proof.
  intros dash crowded.
  apply (Expand_reads_referenced_only SQLStore _ Scenario.on dash
           Scenario.db (receive (FetchLinkedPanels 1) Scenario.db)
           crowded (receive (FetchLinkedPanels 1) crowded)
           {[ "abc" := Scenario.abc ]}
           {[ "abc" := Scenario.abc; "lst" := Scenario.listing ]}).
  - vm_compute. reflexivity.
  - vm_compute. reflexivity.
  - apply Forall_cons_2; [|apply Forall_cons_2; [|apply Forall_nil_2]].
    + intros _. vm_compute. reflexivity.
    + intros H. vm_compute in H. discriminate H.
Defined.

(** ** Link, part by part *)

Section Parts.
Context {DB : Type} `{!ReferenceStore DB}.

(** A round of Link falls through or returns an error. *)
Lemma connectPanel_flow c dash i q (db db' : DB) fl :
  connectPanel c dash i q db = (db', fl) →
  fl = Continue ∨ ∃ err, fl = Stop (Returns (Some err)).
Proof.
  unfold connectPanel, NewFromAny, Interface. intros H.
  destruct (is_nil (Get q "libraryPanel")); [left; by simplify_eq|].
  destruct (bool_decide _); [right; simplify_eq; eauto|].
  destruct (connectDashboard _ _ _ _) as [d [e|]]; simplify_eq; eauto.
Qed.

Lemma visit_connect_app c dash i pre post (db : DB) :
  visit (connectPanel c dash) i (pre ++ post) db =
    match (visit (connectPanel c dash) i pre db).2 with
    | Returns None =>
        visit (connectPanel c dash) (i + length pre) post
          (visit (connectPanel c dash) i pre db).1
    | _ => visit (connectPanel c dash) i pre db
    end.
Proof.
  revert i db. induction pre as [|q pre IH]; intros i db; simpl.
  - by rewrite Nat.add_0_r.
  - destruct (connectPanel c dash i q db) as [db' fl] eqn:Hq.
    destruct (connectPanel_flow _ _ _ _ _ _ _ Hq) as [->|[err ->]]; [|done].
    rewrite IH. by rewrite Nat.add_succ_r.
Qed.

Lemma visit_connect_same c dash dash' i j l (db : DB) :
  Id dash' = Id dash →
  visit (connectPanel c dash') i l db = visit (connectPanel c dash) j l db.
Proof.
  intros Hid. revert i j db. induction l as [|q l IH]; intros i j db; [done|]. simpl.
  rewrite (connectPanel_reads c dash dash' i j q q db) by done.
  destruct (connectPanel c dash j q db) as [db' [|o]]; [|done]. apply IH.
Qed.

End Parts.

Lemma panels_of_part data pre post :
  panels_of data = pre ++ post →
  panels_of (with_panels data pre) = pre ∧ panels_of (with_panels data post) = post.
Proof.
  intros Hl. destruct (document_cases data) as [(m & a & -> & _ & Hw)|[Hnil Hw]].
  - by rewrite !Hw, !panels_of_set_panels.
  - rewrite !Hw, Hnil. rewrite Hnil in Hl. symmetry in Hl.
    by apply app_eq_nil in Hl as [-> ->].
Qed.

(** X9.  Link works through the panel array from the front and stops
    for good at the first error.  For a panel array [pre ++ post]:
    when linking the dashboard with the entries [pre] alone returns a
    nil error, linking the dashboard is linking, from the database so
    reached, the dashboard with the entries [post] alone; when it
    returns an error, that error and the database it left are the
    result for the dashboard, whatever [post] holds: the links made
    before the failure stay, nothing after it is linked.  This holds
    for every implementation of the database calls. *)
Theorem Link_in_two_parts (DB : Type) (RS : ReferenceStore DB)
    (lps : LibraryPanelService) (c : ReqContext) (dash : Dashboard) (db : DB)
    (pre post : list any) :
  panels_of (Data dash) = pre ++ post →
  let part := λ l, with_data dash (with_panels (Data dash) l) in
  let first := ConnectLibraryPanelsForDashboard lps c (part pre) db in
  ConnectLibraryPanelsForDashboard lps c dash db =
    match first.2 with
    | Returns None => ConnectLibraryPanelsForDashboard lps c (part post) first.1
    | _ => first
    end.
Proof.
  intros Hl part first. subst part first. rewrite !Connect_loop. simpl.
  destruct (negb (IsEnabled lps)); [done|].
  destruct (bool_decide (Id dash = 0) || bool_decide (Uid dash = "")); [done|].
  destruct (panels_of_part _ _ _ Hl) as [-> ->]. rewrite Hl.
  rewrite visit_connect_app.
  rewrite (visit_connect_same c dash
             (with_data dash (with_panels (Data dash) pre)) 0 0 pre) by done.
  destruct (visit (connectPanel c dash) 0 pre db) as [db1 [[err|]|]]; try done.
  simpl. by apply visit_connect_same.
Qed.

Lemma Link_in_two_parts_witness :
  let dash := Scenario.on_dash [Scenario.entry; Scenario.broken; Scenario.listed] in
  let part := λ l, with_data dash (with_panels (Data dash) l) in
  let first :=
    ConnectLibraryPanelsForDashboard Scenario.on Scenario.c
      (part [Scenario.entry; Scenario.broken]) Scenario.fresh in
  first.2 = Returns (Some (errors_New "found a library panel without uid")) ∧
  link_rows first.1 7 1 = 1%nat ∧
  ConnectLibraryPanelsForDashboard Scenario.on Scenario.c dash Scenario.fresh = first.
Proof.
  intros dash part first.
  split; [vm_compute; reflexivity|]. split; [vm_compute; reflexivity|].
  etrans.
  - apply (Link_in_two_parts SQLStore _ Scenario.on Scenario.c dash Scenario.fresh
             [Scenario.entry; Scenario.broken] [Scenario.listed]).
    vm_compute. reflexivity.
  - vm_compute. reflexivity.
Defined.

(** ** The migrations *)

(** X10.  AddMigration only appends: the migrations that the migrator
    held stay where they were, and the call does not panic.  With the
    feature off nothing is added.  With the feature on four migrations
    are added under four different ids, and every index among them is
    a unique index declared by its table, over columns of that table,
    and comes after the migration that creates the table. *)
Theorem AddMigration_appends (lps : LibraryPanelService) (mg : migrator.Migrator) :
  ∃ added,
    AddMigration lps mg = Some (mg ++ added) ∧
    (IsEnabled lps = false → added = []) ∧
    (IsEnabled lps = true → length added = 4%nat ∧ NoDup added.*1) ∧
    ∀ k id table index,
      added !! k = Some (id, migrator.NewAddIndexMigration table index) →
      index ∈ migrator.Indices table ∧
      migrator.Kind index = migrator.UniqueIndex ∧
      migrator.Cols index ⊆ (migrator.Name <$> migrator.Columns table) ∧
      ∃ j id', (j < k)%nat ∧
               added !! j = Some (id', migrator.NewAddTableMigration table).
Proof.
  unfold AddMigration. destruct (IsEnabled lps).
  - simpl. unfold migrator.AddMigration. rewrite <- !app_assoc. simpl.
    eexists. split; [reflexivity|]. split; [done|]. split.
    + split; [done|]. apply (bool_decide_unpack _). vm_compute. exact I.
    + intros k id table index Hk.
      destruct k as [|[|[|[|k]]]]; simplify_eq/=.
      * split; [apply list_elem_of_here|]. split; [done|].
        split; [apply (bool_decide_unpack _); vm_compute; exact I|].
        exists 0%nat. eexists. split; [lia|reflexivity].
      * split; [apply list_elem_of_here|]. split; [done|].
        split; [apply (bool_decide_unpack _); vm_compute; exact I|].
        exists 2%nat. eexists. split; [lia|reflexivity].
  - exists []. simpl. rewrite app_nil_r. split; [done|]. split; [done|].
    split; [done|]. intros k id table index Hk. by rewrite lookup_nil in Hk.
Qed.
